(** * Token lifecycle and tenant resolution of the Xero OAuth2 starter (app.py)

    A shallow embedding of the Flask application in [app.py]: the session
    token store, the [xero_token_required] gate, the tenant resolver, the
    OAuth2 callback / logout controller and every route handler, followed
    by the properties the specification states about them.

    The handlers are written in a small state-and-exception monad over the
    Flask session and an observable world (clock, log of outgoing calls,
    standard output).  The two third-party clients the module talks to
    (the xero-python [ApiClient] and the flask-oauthlib remote application)
    are interfaces: the handlers are parametric in them. *)

From stdpp Require Import gmap strings list pretty.
From Stdlib Require Import ZArith.

Local Open Scope string_scope.
Local Open Scope Z_scope.

(** ** Python values *)

(** The values held by the fields of an OAuth2 token mapping. *)
Inductive value :=
| VNone
| VStr (s : string)
| VNum (z : Z)
| VList (l : list string).

(** What the token slot of the session, and the OAuth client's authorised
    response, can be: [None] or a mapping from field names to values.  The
    slot is written only by [store_xero_oauth2_token], whose callers pass
    [None] (logout) or a mapping (callback response, refreshed token). *)
Inductive pyval :=
| PNone
| PDict (d : gmap string value).

(** Python's truth test: [None] and the empty mapping are false. *)
Definition truthy (v : pyval) : bool :=
  match v with
  | PNone => false
  | PDict d => negb (bool_decide (d = ∅))
  end.

(** [d.get(k)]: the field, or [None] when it is missing. *)
Definition dict_get (d : gmap string value) (k : string) : value :=
  default VNone (d !! k).

(** ** Exceptions *)

Inductive exn :=
| AccountingBadRequestException (reason : string) (error_data : string)
| OtherException (cls : string) (msg : string).

(** ** Accounting models (xero_python.accounting) *)

Record Contact := { name : string; email_address : string }.

Record LineItem := {
  description : string;
  quantity : Z;
  unit_amount : Z;
  account_code : string }.

Record Invoice := {
  type : string;
  contact : option Contact;
  line_items : list LineItem;
  line_amount_types : string;
  invoice_number : string;
  due_date : option (Z * Z * Z);
  currency_code : string;
  status : string;
  total : Z;
  total_tax : Z;
  amount_due : Z;
  has_errors : bool;
  validation_errors : list string }.

Record Invoices := { invoices : list Invoice }.

(** A tenant connection as the identity endpoint returns it. *)
Record Connection := { tenant_id : string; tenant_type : string }.

(** ** Session, world and program state *)

(** The Flask session: a dict-like store with a dirty flag. *)
Record Session := {
  items : gmap string pyval;
  modified : bool }.

(** Outgoing calls, in the order they were issued. *)
Inductive Call :=
| RefreshExchange (old : gmap string value)
| IdentityCall (bearer : gmap string value)
| AccountingCall (operation : string) (bearer : gmap string value).

Record World := {
  now : Z;
  calls : list Call;
  stdout : list exn }.

Record State := {
  session : Session;
  world : World }.

(** ** The state-and-exception monad of a request handler *)

Inductive Result (A : Type) :=
| Ok (a : A)
| Raise (e : exn).
Arguments Ok {A} a.
Arguments Raise {A} e.

Definition M (A : Type) : Type := State -> Result A * State.

Definition ret {A} (a : A) : M A := fun st => (Ok a, st).

Definition raise {A} (e : exn) : M A := fun st => (Raise e, st).

Definition bind {A B} (m : M A) (k : A -> M B) : M B :=
  fun st =>
    match m st with
    | (Ok a, st') => k a st'
    | (Raise e, st') => (Raise e, st')
    end.

(** [try: x = body  except <handler>  else: <els x>].  The handler sees the
    exception; a handler for one exception class re-raises the others. *)
Definition try_except_else {A B} (body : M A) (handler : exn -> M B)
    (els : A -> M B) : M B :=
  fun st =>
    match body st with
    | (Ok a, st') => els a st'
    | (Raise e, st') => handler e st'
    end.

Declare Scope handler_scope.
Delimit Scope handler_scope with handler.
Notation "x <- m ;; k" := (bind m (fun x => k))
  (at level 100, m at next level, right associativity) : handler_scope.
Notation "m ;;; k" := (bind m (fun _ => k))
  (at level 100, right associativity) : handler_scope.
Local Open Scope handler_scope.

(** [print(e)] *)
Definition print (e : exn) : M unit :=
  fun st =>
    (Ok tt,
     {| session := session st;
        world := {| now := now (world st);
                    calls := calls (world st);
                    stdout := stdout (world st) ++ [e] |} |}).

(** ** Rendered responses

    Rendering helpers ([render_template], [json.dumps], [jsonify],
    [serialize_model], [str], [repr]) are kept symbolic: a response records
    which helper was applied to which argument. *)

Inductive Code :=
| Literal (s : string)
| JsonDumps (d : gmap string value)
| SerializeInvoices (x : Invoices)
| JsonifyErrorData (error_data : string)
| JsonifyStr (s : string)
| JsonifyTokens (old_token new_token : pyval)
| Concat (a b : Code).

Inductive ResultList :=
| ResultListNone
| ResultListOf (l : list string).

Inductive Response :=
| Redirect (endpoint : string)
| RenderTemplate (template title : string) (code : Code)
    (sub_title : option string) (result_list : option ResultList)
| FormatBody (fmt : string) (arg : pyval)
| SendFile (fmt : string) (arg : pyval) (mimetype : string)
    (as_attachment : bool) (attachment_filename : string)
| AuthorizeRedirect (callback_endpoint : string).

(** [redirect(url_for(endpoint, _external=True))] *)
Definition redirect_url_for (endpoint : string) : Response := Redirect endpoint.

(** ** Token store *)

Definition obtain_xero_oauth2_token : M pyval :=
  fun st => (Ok (default PNone (items (session st) !! "token")), st).

Definition store_xero_oauth2_token (token : pyval) : M unit :=
  fun st =>
    (Ok tt,
     {| session := {| items := <["token" := token]> (items (session st));
                      modified := true |};
        world := world st |}).

(** The token a state holds, as [obtain_xero_oauth2_token] reads it. *)
Definition stored_token (st : State) : pyval :=
  default PNone (items (session st) !! "token").

(** ** Authenticated request gate *)

Definition xero_token_required {A} (function : A -> M Response)
    : A -> M Response :=
  fun args =>
    xero_token <- obtain_xero_oauth2_token ;;
    if negb (truthy xero_token) then ret (redirect_url_for "login")
    else function args.

(** ** Home page *)

(** [a or b] *)
Definition py_or (a b : pyval) : pyval := if truthy a then a else b.

(** [dict(v)]: a copy of a mapping; [dict(None)] is a [TypeError]. *)
Definition dict_of (v : pyval) : M (gmap string value) :=
  match v with
  | PDict d => ret d
  | PNone => raise (OtherException "TypeError" "'NoneType' object is not iterable")
  end.

Definition index : M Response :=
  token <- obtain_xero_oauth2_token ;;
  xero_access <- dict_of (py_or token (PDict ∅)) ;;
  ret (RenderTemplate "code.html" "Home | oauth token" (JsonDumps xero_access)
         None None).

(** ** The third-party clients

    [ApiClient] is the part of the xero-python SDK the module uses:
    [api_client.refresh_oauth2_token()], [IdentityApi.get_connections()] and
    the [AccountingApi] operations.  Each may read and write the session
    (through the registered token getter and saver), may issue outgoing
    calls, and may raise. *)

Record ApiClient := {
  refresh_oauth2_token : M pyval;
  get_connections : M (list Connection);
  accounting_get_invoices :
    option string -> option (list string) -> option (list string) -> M Invoices;
  accounting_get_invoice : option string -> string -> M Invoices;
  accounting_create_invoices : option string -> Invoices -> M Invoices;
  accounting_update_invoice : option string -> string -> Invoices -> M Invoices }.

(** [RemoteApp] is the flask-oauthlib application [xero]:
    [xero.authorize(callback_uri=...)] and [xero.authorized_response()]. *)
Record RemoteApp := {
  authorize : string -> M Response;
  authorized_response : M pyval }.

(** ** Tenant resolver *)

(** The [for connection in ...] loop of [get_xero_tenant_id]; falling off
    the end of the function returns [None]. *)
Fixpoint scan_connections (connections : list Connection) : option string :=
  match connections with
  | [] => None
  | connection :: rest =>
      if String.eqb (tenant_type connection) "ORGANISATION"
      then Some (tenant_id connection)
      else scan_connections rest
  end.

Definition get_xero_tenant_id (api_client : ApiClient) : M (option string) :=
  token <- obtain_xero_oauth2_token ;;
  if negb (truthy token) then ret None
  else
    connections <- get_connections api_client ;;
    ret (scan_connections connections).

(** ** Route handlers *)

Section Handlers.

Variable api_client : ApiClient.
Variable xero : RemoteApp.

Definition sample_invoice_id : string := "0e64a623-c2a1-446a-93ed-eb897f118cbc".

Definition get_invoices_view (_ : unit) : M Response :=
  xero_tenant_id <- get_xero_tenant_id api_client ;;
  invoices_ <- accounting_get_invoices api_client xero_tenant_id
                 (Some ["DRAFT"; "SUBMITTED"]) None ;;
  let code := SerializeInvoices invoices_ in
  let sub_title :=
    "Total invoices found: " +:+ pretty (length (invoices invoices_)) in
  ret (RenderTemplate "code.html" "Invoices" code (Some sub_title) None).

Definition get_invoice_id_view (_ : unit) : M Response :=
  xero_tenant_id <- get_xero_tenant_id api_client ;;
  invoice <- accounting_get_invoice api_client xero_tenant_id sample_invoice_id ;;
  let code := SerializeInvoices invoice in
  let sub_title := "Invoice found:" in
  ret (RenderTemplate "code.html" "Invoice" code (Some sub_title) None).

Definition get_invoice_num_view (_ : unit) : M Response :=
  xero_tenant_id <- get_xero_tenant_id api_client ;;
  invoice <- accounting_get_invoices api_client xero_tenant_id
               None (Some ["INV-949"]) ;;
  let code := SerializeInvoices invoice in
  let sub_title := "Invoice found:" in
  ret (RenderTemplate "code.html" "Invoice" code (Some sub_title) None).

Definition john_doe : Contact :=
  {| name := "John Doe"; email_address := "john.doe@example.com" |}.

Definition consulting : LineItem :=
  {| description := "Consulting services";
     quantity := 10;
     unit_amount := 100;
     account_code := "200" |}.

(** The draft invoice the create/update routes build; only the invoice
    number and the due date differ between them. *)
Definition draft_invoice (number : string) (due : option (Z * Z * Z)) : Invoice :=
  {| type := "ACCREC";
     contact := Some john_doe;
     line_items := [consulting];
     line_amount_types := "Exclusive";
     invoice_number := number;
     due_date := due;
     currency_code := "AUD";
     status := "DRAFT";
     total := 1000;
     total_tax := 100;
     amount_due := 1100;
     has_errors := false;
     validation_errors := [] |}.

(** [getvalue(invoice.validation_errors, "0.message", "")] *)
Definition first_validation_message (invoice : Invoice) : string :=
  match validation_errors invoice with
  | [] => ""
  | message :: _ => message
  end.

(** The [for invoice in created_invoices.invoices] loop of [create_invoices]. *)
Fixpoint creation_results (created : list Invoice) (result_list : list string)
    : list string :=
  match created with
  | [] => result_list
  | invoice :: rest =>
      if has_errors invoice
      then creation_results rest
             (result_list ++ ["Error: " +:+ first_validation_message invoice])
      else creation_results rest
             (result_list ++ ["Invoice " +:+ invoice_number invoice +:+ " created."])
  end.

Definition create_invoices_view (_ : unit) : M Response :=
  xero_tenant_id <- get_xero_tenant_id api_client ;;
  let due_date := (2026, 11, 12) in
  let emptyInvoice := draft_invoice "INV-949" (Some due_date) in
  let invoices_ := {| invoices := [emptyInvoice] |} in
  try_except_else
    (accounting_create_invoices api_client xero_tenant_id invoices_)
    (fun exception =>
       match exception with
       | AccountingBadRequestException reason error_data =>
           ret (RenderTemplate "code.html" "Create Multiple Invoices"
                  (JsonifyErrorData error_data)
                  (Some ("Error: " +:+ reason)) (Some ResultListNone))
       | _ => raise exception
       end)
    (fun created_invoices =>
       let result_list := creation_results (invoices created_invoices) [] in
       ret (RenderTemplate "code.html" "Create Multiple Invoices"
              (SerializeInvoices created_invoices)
              (Some "") (Some (ResultListOf result_list)))).

Definition get_invoice_view (_ : unit) : M Response :=
  xero_tenant_id <- get_xero_tenant_id api_client ;;
  invoice <- accounting_get_invoice api_client xero_tenant_id sample_invoice_id ;;
  let code := SerializeInvoices invoice in
  let sub_title := "Invoice found:" in
  ret (RenderTemplate "code.html" "Invoice" code (Some sub_title) None).

Definition create_invoice_view (_ : unit) : M Response :=
  xero_tenant_id <- get_xero_tenant_id api_client ;;
  let emptyInvoice := draft_invoice "INV-001" None in
  let invoices_ := {| invoices := [emptyInvoice] |} in
  try_except_else
    (accounting_create_invoices api_client xero_tenant_id invoices_)
    (fun exception =>
       match exception with
       | AccountingBadRequestException reason error_data =>
           ret (RenderTemplate "code.html" "Created Invoice"
                  (JsonifyErrorData error_data) (Some ("Error: " +:+ reason)) None)
       | _ => raise exception
       end)
    (fun created_invoices =>
       ret (RenderTemplate "code.html" "Created Invoice"
              (SerializeInvoices created_invoices)
              (Some "Invoice {} created.") None)).

Definition update_invoice_view (_ : unit) : M Response :=
  xero_tenant_id <- get_xero_tenant_id api_client ;;
  let oldInvoice := "INV-001" in
  let invoice_id := oldInvoice in
  let invoice := draft_invoice "INV-001" None in
  let invoices_ := {| invoices := [invoice] |} in
  try_except_else
    (accounting_update_invoice api_client xero_tenant_id invoice_id invoices_)
    (fun exception =>
       match exception with
       | AccountingBadRequestException reason error_data =>
           ret (RenderTemplate "code.html" "Updated Invoice"
                  (JsonifyErrorData error_data) (Some ("Error: " +:+ reason)) None)
       | _ => raise exception
       end)
    (fun updated_invoice =>
       ret (RenderTemplate "code.html" "Updated Invoice"
              (SerializeInvoices updated_invoice)
              (Some "Invoice updated.") None)).

(** [check_invoice] carries no [xero_token_required] decorator. *)
Definition check_invoice : M Response :=
  xero_tenant_id <- get_xero_tenant_id api_client ;;
  let invoice_number_ := sample_invoice_id in
  let invoice_id := invoice_number_ in
  try_except_else
    (accounting_get_invoice api_client xero_tenant_id invoice_id)
    (fun _ =>
       ret (RenderTemplate "code.html" "Invoice check" (JsonifyStr "")
              (Some ("No invoice with invoice id " +:+ invoice_id +:+ " exists."))
              None))
    (fun invoice =>
       ret (RenderTemplate "code.html" "Invoice check" (SerializeInvoices invoice)
              (Some ("A invoice with invoice id " +:+ invoice_id +:+ " exists."))
              None)).

Definition check_invoice_bool (invoice_id : string) : M bool :=
  xero_tenant_id <- get_xero_tenant_id api_client ;;
  try_except_else
    (accounting_get_invoice api_client xero_tenant_id invoice_id)
    (fun _ => ret false)
    (fun _ => ret true).

(** The [for invoice_id in invoice_ids] loop of [check_invoices_bool]. *)
Fixpoint existing_invoices (xero_tenant_id : option string)
    (invoice_ids : list string) (exists_array : list string) : M (list string) :=
  match invoice_ids with
  | [] => ret exists_array
  | invoice_id :: rest =>
      try_except_else
        (accounting_get_invoice api_client xero_tenant_id invoice_id)
        (fun _ => existing_invoices xero_tenant_id rest exists_array)
        (fun _ => existing_invoices xero_tenant_id rest (exists_array ++ [invoice_id]))
  end.

Definition check_invoices_bool (invoice_ids : list string) : M (list string) :=
  xero_tenant_id <- get_xero_tenant_id api_client ;;
  existing_invoices xero_tenant_id invoice_ids [].

(** The [for invoice_id in invoice_ids] loop of [check_invoices]; the fetch
    is outside any [try]. *)
Fixpoint render_existing (xero_tenant_id : option string)
    (invoice_ids : list string) (code : Code) (sub_title : string)
    : M (Code * string) :=
  match invoice_ids with
  | [] => ret (code, sub_title)
  | invoice_id :: rest =>
      invoice <- accounting_get_invoice api_client xero_tenant_id invoice_id ;;
      render_existing xero_tenant_id rest
        (Concat code (SerializeInvoices invoice))
        (sub_title +:+ " " +:+ invoice_id)
  end.

(** [check_invoices] carries no [xero_token_required] decorator. *)
Definition check_invoices : M Response :=
  xero_tenant_id <- get_xero_tenant_id api_client ;;
  let invoice_number_ := sample_invoice_id in
  let invoice_number2 := "7e024960-d582-452c-8b62-85308d99595b" in
  invoice_ids <- check_invoices_bool [invoice_number_; invoice_number2] ;;
  rendered <- render_existing xero_tenant_id invoice_ids (Literal "") "" ;;
  ret (RenderTemplate "code.html" "Invoice checks" (fst rendered)
         (Some ("the invoice/s " +:+ snd rendered +:+ " exsist")) None).

Definition login : M Response :=
  let redirect_url := "oauth_callback" in
  response <- authorize xero redirect_url ;;
  ret response.

Definition oauth_callback : M Response :=
  response <- try_except_else (authorized_response xero)
                (fun e => print e ;;; raise e)
                ret ;;
  let denied :=
    match response with
    | PNone => true
    | PDict d =>
        match dict_get d "access_token" with
        | VNone => true
        | _ => false
        end
    end in
  if denied then ret (FormatBody "Access denied: response=%s" response)
  else
    store_xero_oauth2_token response ;;;
    ret (redirect_url_for "index").

Definition logout : M Response :=
  store_xero_oauth2_token PNone ;;;
  ret (redirect_url_for "index").

Definition export_token_view (_ : unit) : M Response :=
  token <- obtain_xero_oauth2_token ;;
  ret (SendFile "token={!r}" token "x.python" true "oauth2_token.py").

Definition refresh_token_view (_ : unit) : M Response :=
  xero_token <- obtain_xero_oauth2_token ;;
  new_token <- refresh_oauth2_token api_client ;;
  ret (RenderTemplate "code.html" "Xero OAuth2 token"
         (JsonifyTokens xero_token new_token) (Some "token refreshed") None).

(** ** Routing table *)

(** The views decorated with [@xero_token_required]. *)
Inductive ProtectedView :=
| get_invoices
| get_invoice_id
| get_invoice_num
| create_invoices
| get_invoice
| create_invoice
| update_invoice
| export_token
| refresh_token.

Definition view_function (view : ProtectedView) : unit -> M Response :=
  match view with
  | get_invoices => get_invoices_view
  | get_invoice_id => get_invoice_id_view
  | get_invoice_num => get_invoice_num_view
  | create_invoices => create_invoices_view
  | get_invoice => get_invoice_view
  | create_invoice => create_invoice_view
  | update_invoice => update_invoice_view
  | export_token => export_token_view
  | refresh_token => refresh_token_view
  end.

(** A decorated view as Flask calls it. *)
Definition protected (view : ProtectedView) : M Response :=
  xero_token_required (view_function view) tt.

Inductive Route :=
| route_index
| route_protected (view : ProtectedView)
| route_check_invoice
| route_check_invoices
| route_login
| route_callback
| route_logout.

Definition dispatch (route : Route) : M Response :=
  match route with
  | route_index => index
  | route_protected view => protected view
  | route_check_invoice => check_invoice
  | route_check_invoices => check_invoices
  | route_login => login
  | route_callback => oauth_callback
  | route_logout => logout
  end.

End Handlers.

(** ** The SDK's refresh gate *)

(** The servers behind the SDK: what the authorization server answers to a
    refresh-token exchange, what the identity endpoint answers for a bearer
    token, and what the accounting endpoints answer for a bearer token, a
    tenant and a request. *)
Inductive Request :=
| GetInvoices (statuses invoice_numbers : option (list string))
| GetInvoice (invoice_id : string)
| CreateInvoices (body : Invoices)
| UpdateInvoice (invoice_id : string) (body : Invoices).

Record Env := {
  token_endpoint : gmap string value -> Result (gmap string value);
  identity_endpoint : gmap string value -> Result (list Connection);
  accounting_endpoint :
    gmap string value -> option string -> Request -> Result Invoices }.

Definition log_call (c : Call) : M unit :=
  fun st =>
    (Ok tt,
     {| session := session st;
        world := {| now := now (world st);
                    calls := calls (world st) ++ [c];
                    stdout := stdout (world st) |} |}).

Definition clock : M Z := fun st => (Ok (now (world st)), st).

Definition lift {A} (r : Result A) : M A := fun st => (r, st).

(** Modelled from the spec: the expiry test of the Token Refresh Gate
    (section 4.2), which lives in the xero-python SDK.  A token has expired
    when its [expires_at] field is a time before the current one. *)
Definition expires_at_passed (current : Z) (token : gmap string value) : bool :=
  match token !! "expires_at" with
  | Some (VNum expires_at) => expires_at <? current
  | _ => false
  end.

(** Modelled from the spec: the refresh-token exchange of section 4.2, which
    lives in the xero-python SDK.  The refresh token is posted to the token
    endpoint; on success the new token replaces the stored one through the
    registered token saver, on failure the exchange raises. *)
Definition refresh_exchange (env : Env) (token : gmap string value)
    : M (gmap string value) :=
  log_call (RefreshExchange token) ;;;
  new_token <- lift (token_endpoint env token) ;;
  store_xero_oauth2_token (PDict new_token) ;;;
  ret new_token.

(** Modelled from the spec: the Token Refresh Gate of section 4.2, which
    lives in the xero-python SDK and runs before every outgoing API call.
    An unexpired stored token is used unchanged, an expired one is exchanged
    first.  With no stored token there is nothing to send and the call
    fails before leaving the process. *)
Definition refresh_gate (env : Env) : M (gmap string value) :=
  token <- obtain_xero_oauth2_token ;;
  match token with
  | PNone => raise (OtherException "AuthenticationError" "no token")
  | PDict t =>
      current <- clock ;;
      if expires_at_passed current t then refresh_exchange env t else ret t
  end.

(** Modelled from the spec: the forced exchange behind the [/refresh-token]
    route (section 6), [ApiClient.refresh_oauth2_token] of the SDK. *)
Definition forced_refresh (env : Env) : M pyval :=
  token <- obtain_xero_oauth2_token ;;
  match token with
  | PNone => raise (OtherException "AuthenticationError" "no token")
  | PDict t => new_token <- refresh_exchange env t ;; ret (PDict new_token)
  end.

(** Modelled from the spec: an accounting call of the SDK, which passes the
    refresh gate and then reaches the endpoint with the bearer token and
    the tenant (section 6, downstream accounting endpoints). *)
Definition accounting_call (env : Env) (operation : string)
    (xero_tenant_id : option string) (request : Request) : M Invoices :=
  bearer <- refresh_gate env ;;
  log_call (AccountingCall operation bearer) ;;;
  lift (accounting_endpoint env bearer xero_tenant_id request).

(** Modelled from the spec: the identity call of the SDK behind the refresh
    gate (sections 4.4 and 6). *)
Definition identity_call (env : Env) : M (list Connection) :=
  bearer <- refresh_gate env ;;
  log_call (IdentityCall bearer) ;;;
  lift (identity_endpoint env bearer).

(** Modelled from the spec: the xero-python client as sections 4.2, 4.4 and
    6 describe it. *)
Definition sdk (env : Env) : ApiClient :=
  {| refresh_oauth2_token := forced_refresh env;
     get_connections := identity_call env;
     accounting_get_invoices := fun tenant statuses numbers =>
       accounting_call env "get_invoices" tenant (GetInvoices statuses numbers);
     accounting_get_invoice := fun tenant invoice_id =>
       accounting_call env "get_invoice" tenant (GetInvoice invoice_id);
     accounting_create_invoices := fun tenant body =>
       accounting_call env "create_invoices" tenant (CreateInvoices body);
     accounting_update_invoice := fun tenant invoice_id body =>
       accounting_call env "update_invoice" tenant (UpdateInvoice invoice_id body) |}.

(** Whether a logged call is a refresh-token exchange. *)
Definition is_refresh (c : Call) : bool :=
  match c with
  | RefreshExchange _ => true
  | _ => false
  end.

(** The number of refresh-token exchanges in a call log. *)
Definition refresh_count (log : list Call) : nat :=
  length (List.filter is_refresh log).

(** The gate-wrapped views whose body talks to the API client;
    [export_token] only reads the session. *)
Definition calls_api_client (view : ProtectedView) : bool :=
  match view with
  | export_token => false
  | _ => true
  end.

(** ** Concrete clients, tokens and states *)

Definition connection_error : exn :=
  OtherException "ConnectionError" "network unreachable".

(** An API client with no network: every operation raises. *)
Definition offline_client : ApiClient :=
  {| refresh_oauth2_token := raise connection_error;
     get_connections := raise connection_error;
     accounting_get_invoices := fun _ _ _ => raise connection_error;
     accounting_get_invoice := fun _ _ => raise connection_error;
     accounting_create_invoices := fun _ _ => raise connection_error;
     accounting_update_invoice := fun _ _ _ => raise connection_error |}.

(** An API client whose identity endpoint answers [connections] and whose
    other operations have no network. *)
Definition listing_client (connections : list Connection) : ApiClient :=
  {| refresh_oauth2_token := raise connection_error;
     get_connections := ret connections;
     accounting_get_invoices := fun _ _ _ => raise connection_error;
     accounting_get_invoice := fun _ _ => raise connection_error;
     accounting_create_invoices := fun _ _ => raise connection_error;
     accounting_update_invoice := fun _ _ _ => raise connection_error |}.

(** An OAuth application whose code exchange fails. *)
Definition failing_app : RemoteApp :=
  {| authorize := fun callback => ret (AuthorizeRedirect callback);
     authorized_response :=
       raise (OtherException "OAuthException" "invalid_grant") |}.

(** An OAuth application whose authorised response is [answer]. *)
Definition answering_app (answer : pyval) : RemoteApp :=
  {| authorize := fun callback => ret (AuthorizeRedirect callback);
     authorized_response := ret answer |}.

Definition stale_token : gmap string value :=
  {[ "access_token" := VStr "old-access";
     "refresh_token" := VStr "old-refresh";
     "expires_at" := VNum 100 ]}.

Definition fresh_token : gmap string value :=
  {[ "access_token" := VStr "new-access";
     "refresh_token" := VStr "new-refresh";
     "expires_at" := VNum 5000 ]}.

Definition three_connections : list Connection :=
  [ {| tenant_id := "A"; tenant_type := "BANK" |};
    {| tenant_id := "B"; tenant_type := "ORGANISATION" |};
    {| tenant_id := "C"; tenant_type := "ORGANISATION" |} ].

Definition demo_env : Env :=
  {| token_endpoint := fun _ => Ok fresh_token;
     identity_endpoint := fun _ => Ok three_connections;
     accounting_endpoint := fun _ _ _ => Ok {| invoices := [] |} |}.

(** A state at time [current] whose session holds exactly [slots]. *)
Definition state_at (current : Z) (slots : gmap string pyval) : State :=
  {| session := {| items := slots; modified := false |};
     world := {| now := current; calls := []; stdout := [] |} |}.

(** A first request: empty session. *)
Definition anonymous : State := state_at 1000 ∅.

(** A session holding a token that expired at 100, seen at time 1000. *)
Definition stale_session : State :=
  state_at 1000 {[ "token" := PDict stale_token ]}.

(** ** Specification-side notions *)

Definition is_organisation (c : Connection) : Prop :=
  tenant_type c = "ORGANISATION".

(** [resolved] is the tenant the specification asks for: the id of the
    first connection, in the returned order, whose type is ORGANISATION;
    absent when no connection has that type. *)
Definition first_organisation (connections : list Connection)
    (resolved : option string) : Prop :=
  match resolved with
  | Some tid =>
      exists (before : list Connection) c after,
        connections = (before ++ c :: after)%list
        /\ Forall (fun b => ~ is_organisation b) before
        /\ is_organisation c
        /\ tenant_id c = tid
  | None => Forall (fun b => ~ is_organisation b) connections
  end.

(** An authorised response that is absent or has no [access_token] field. *)
Definition lacks_access_token (response : pyval) : Prop :=
  response = PNone
  \/ exists d, response = PDict d /\ d !! "access_token" = None.

(** A token value: a mapping with at least one field. *)
Definition token_value (v : pyval) : Prop :=
  exists d, v = PDict d /\ d ≠ ∅.

Definition returned {A} (r : Result A) : bool :=
  match r with
  | Ok _ => true
  | Raise _ => false
  end.

(** [kept_ids api tenant ids st kept st']: running the fetch on [ids] in
    order from [st] ends in [st'], and [kept] are the ids, in order, whose
    fetch returned rather than raised. *)
Inductive kept_ids (api_client : ApiClient) (tenant : option string)
    : list string -> State -> list string -> State -> Prop :=
| kept_done st : kept_ids api_client tenant [] st [] st
| kept_found invoice_id rest st invoice st1 kept st' :
    accounting_get_invoice api_client tenant invoice_id st = (Ok invoice, st1) ->
    kept_ids api_client tenant rest st1 kept st' ->
    kept_ids api_client tenant (invoice_id :: rest) st (invoice_id :: kept) st'
| kept_missing invoice_id rest st e st1 kept st' :
    accounting_get_invoice api_client tenant invoice_id st = (Raise e, st1) ->
    kept_ids api_client tenant rest st1 kept st' ->
    kept_ids api_client tenant (invoice_id :: rest) st kept st'.

(** The state after [c] has been appended to the call log. *)
Definition logged (c : Call) (st : State) : State :=
  snd (log_call c st).

(** The state after a successful exchange of [old] for [new]: the exchange
    is logged and [new] is stored. *)
Definition refreshed (old new : gmap string value) (st : State) : State :=
  snd (store_xero_oauth2_token (PDict new) (logged (RefreshExchange old) st)).

(** What a request leaves behind when it was entered with the expired
    token [old] and refreshed once: the log has grown by one exchange of
    [old], followed only by calls that are not exchanges, and the stored
    token is [new]. *)
Definition refreshed_once (old new : gmap string value) (st st' : State) : Prop :=
  (exists downstream,
     calls (world st')
     = (calls (world st) ++ RefreshExchange old :: downstream)%list
     /\ Forall (fun c => is_refresh c = false) downstream)
  /\ stored_token st' = PDict new.

(** The routes that perform a downstream call: the decorated views that
    talk to the API client, and the two check routes. *)
Definition downstream_route (route : Route) : bool :=
  match route with
  | route_protected view => calls_api_client view
  | route_check_invoice | route_check_invoices => true
  | _ => false
  end.

(** A state reached inside a request that was entered in [st] with the
    expired token [old]: one exchange of [old] has been logged since [st],
    nothing logged after it is an exchange, the clock reads as in [st] and
    the stored token is [new]. *)
Definition settled (old new : gmap string value) (st s : State) : Prop :=
  stored_token s = PDict new
  /\ now (world s) = now (world st)
  /\ exists downstream,
       calls (world s)
       = (calls (world st) ++ RefreshExchange old :: downstream)%list
       /\ Forall (fun c => is_refresh c = false) downstream.

(** A computation that keeps a settled state settled. *)
Definition keeps_settled {A} (old new : gmap string value) (st : State)
    (m : M A) : Prop :=
  forall s, settled old new st s -> settled old new st (snd (m s)).

(** A complete token as the OAuth client stores it, with every field the
    data model names. *)
Definition full_token (access refresh : string) (expires_at : Z)
    : gmap string value :=
  {[ "access_token" := VStr access;
     "refresh_token" := VStr refresh;
     "expires_at" := VNum expires_at;
     "expires_in" := VNum 1800;
     "token_type" := VStr "Bearer";
     "id_token" := VStr "id";
     "scope" := VList ["offline_access"; "openid"; "accounting.transactions"] ]}.

(** A token that expired at 100, its renewal valid until 2800, and a
    renewal that is itself already past at time 1000. *)
Definition expired_full_token : gmap string value :=
  full_token "access-1" "refresh-1" 100.

Definition renewed_full_token : gmap string value :=
  full_token "access-2" "refresh-2" 2800.

Definition lapsed_full_token : gmap string value :=
  full_token "access-2" "refresh-2" 900.

Definition expired_session : State :=
  state_at 1000 {[ "token" := PDict expired_full_token ]}.

(** Servers that answer every exchange with the renewal, respectively with
    the renewal that is already past. *)
Definition renewing_env : Env :=
  {| token_endpoint := fun _ => Ok renewed_full_token;
     identity_endpoint := fun _ => Ok three_connections;
     accounting_endpoint := fun _ _ _ => Ok {| invoices := [] |} |}.

Definition lapsing_env : Env :=
  {| token_endpoint := fun _ => Ok lapsed_full_token;
     identity_endpoint := fun _ => Ok three_connections;
     accounting_endpoint := fun _ _ _ => Ok {| invoices := [] |} |}.

(** ** Notions used by the further properties *)

(** An authorised response that carries an access token. *)
Definition grants_access (response : pyval) : Prop :=
  exists d v,
    response = PDict d /\ d !! "access_token" = Some v /\ v <> VNone.

(** The decorated views that resolve the tenant and then make one
    accounting call. *)
Definition accounting_view (view : ProtectedView) : bool :=
  match view with
  | export_token | refresh_token => false
  | _ => true
  end.

(** The accounting call a decorated view makes once the tenant is
    resolved. *)
Definition accounting_request (api_client : ApiClient) (view : ProtectedView)
    (xero_tenant_id : option string) : option (M Invoices) :=
  match view with
  | get_invoices =>
      Some (accounting_get_invoices api_client xero_tenant_id
              (Some ["DRAFT"; "SUBMITTED"]) None)
  | get_invoice_id | get_invoice =>
      Some (accounting_get_invoice api_client xero_tenant_id sample_invoice_id)
  | get_invoice_num =>
      Some (accounting_get_invoices api_client xero_tenant_id
              None (Some ["INV-949"]))
  | create_invoices =>
      Some (accounting_create_invoices api_client xero_tenant_id
              {| invoices := [draft_invoice "INV-949" (Some (2026, 11, 12))] |})
  | create_invoice =>
      Some (accounting_create_invoices api_client xero_tenant_id
              {| invoices := [draft_invoice "INV-001" None] |})
  | update_invoice =>
      Some (accounting_update_invoice api_client xero_tenant_id "INV-001"
              {| invoices := [draft_invoice "INV-001" None] |})
  | export_token | refresh_token => None
  end.

(** The views whose accounting call sits in a
    [try ... except AccountingBadRequestException]. *)
Definition handles_bad_request (view : ProtectedView) : bool :=
  match view with
  | create_invoices | create_invoice | update_invoice => true
  | _ => false
  end.

Definition is_bad_request (e : exn) : bool :=
  match e with
  | AccountingBadRequestException _ _ => true
  | OtherException _ _ => false
  end.

(** The line [create_invoices] reports for one returned invoice. *)
Definition describe_created (invoice : Invoice) : string :=
  if has_errors invoice
  then "Error: " +:+ first_validation_message invoice
  else "Invoice " +:+ invoice_number invoice +:+ " created.".

(** The ids, each preceded by a blank. *)
Definition id_listing (invoice_ids : list string) : string :=
  foldr (fun invoice_id rest => " " +:+ invoice_id +:+ rest) "" invoice_ids.

(** A computation that leaves the session as it found it. *)
Definition keeps_session {A} (m : M A) : Prop :=
  forall st, session (snd (m st)) = session st.

(** A client none of whose operations writes the session. *)
Record client_keeps_session (api_client : ApiClient) : Prop := {
  keeps_refresh : keeps_session (refresh_oauth2_token api_client);
  keeps_connections : keeps_session (get_connections api_client);
  keeps_get_invoices : forall tenant statuses numbers,
    keeps_session (accounting_get_invoices api_client tenant statuses numbers);
  keeps_get_invoice : forall tenant invoice_id,
    keeps_session (accounting_get_invoice api_client tenant invoice_id);
  keeps_create_invoices : forall tenant body,
    keeps_session (accounting_create_invoices api_client tenant body);
  keeps_update_invoice : forall tenant invoice_id body,
    keeps_session (accounting_update_invoice api_client tenant invoice_id body) }.

(** The routes in which [app.py] itself calls the token saver. *)
Definition saves_token (route : Route) : bool :=
  match route with
  | route_callback | route_logout => true
  | _ => false
  end.

(** A client without state: the identity endpoint answers [connections],
    every accounting operation answers by [answer], and no refresh is
    possible. *)
Definition scripted_client (connections : list Connection)
    (answer : Request -> Result Invoices) : ApiClient :=
  {| refresh_oauth2_token := raise connection_error;
     get_connections := ret connections;
     accounting_get_invoices := fun _ statuses numbers =>
       lift (answer (GetInvoices statuses numbers));
     accounting_get_invoice := fun _ invoice_id =>
       lift (answer (GetInvoice invoice_id));
     accounting_create_invoices := fun _ body =>
       lift (answer (CreateInvoices body));
     accounting_update_invoice := fun _ invoice_id body =>
       lift (answer (UpdateInvoice invoice_id body)) |}.

(** An endpoint that knows only the sample invoice. *)
Definition only_sample (request : Request) : Result Invoices :=
  match request with
  | GetInvoice invoice_id =>
      if String.eqb invoice_id sample_invoice_id
      then Ok {| invoices := [draft_invoice "INV-001" None] |}
      else Raise (OtherException "AccountingNotFoundException" "Not Found")
  | _ => Raise (AccountingBadRequestException "Bad Request" "ValidationException")
  end.

(** An endpoint that accepts what is posted and answers it back. *)
Definition echo (request : Request) : Result Invoices :=
  match request with
  | CreateInvoices body | UpdateInvoice _ body => Ok body
  | _ => Ok {| invoices := [] |}
  end.

(** * Properties *)

(** ** Token store *)

Lemma stored_token_after_store token st :
  stored_token (snd (store_xero_oauth2_token token st)) = token.
Proof. unfold stored_token; simpl. by rewrite lookup_insert_eq. Qed.

Lemma obtain_reads_stored st :
  obtain_xero_oauth2_token st = (Ok (stored_token st), st).
Proof. reflexivity. Qed.

(** C7. Token store round trip: storing any token value (a mapping, or
    [None]) and reading the store straight afterwards returns the value that
    was stored; for a mapping, every field reads as it was written.  The
    store also marks the session as modified. *)
Theorem token_store_round_trip (token : pyval) (st : State) :
  (store_xero_oauth2_token token ;;; obtain_xero_oauth2_token) st
    = (Ok token, snd (store_xero_oauth2_token token st))
  /\ modified (session (snd (store_xero_oauth2_token token st))) = true
  /\ forall (d : gmap string value) (field : string),
       exists d',
         fst ((store_xero_oauth2_token (PDict d) ;;; obtain_xero_oauth2_token) st)
         = Ok (PDict d')
         /\ d' !! field = d !! field.
Proof.
  assert (Hrun : forall v,
            (store_xero_oauth2_token v ;;; obtain_xero_oauth2_token) st
            = (Ok v, snd (store_xero_oauth2_token v st))).
  { intros v. unfold bind. simpl. rewrite obtain_reads_stored.
    f_equal. f_equal. apply (stored_token_after_store v st). }
  split; [apply Hrun|]. split; [reflexivity|].
  intros d field. exists d. by rewrite Hrun.
Qed.

(** ** Authenticated request gate *)

Lemma truthy_token_value v : token_value v -> truthy v = true.
Proof.
  intros (d & -> & Hne). simpl. by rewrite bool_decide_eq_false_2.
Qed.

Lemma gate_passes {A} (function : A -> M Response) args st :
  truthy (stored_token st) = true ->
  xero_token_required function args st = function args st.
Proof.
  intros Ht. unfold xero_token_required, bind.
  rewrite obtain_reads_stored, Ht. reflexivity.
Qed.

Lemma gate_redirects {A} (function : A -> M Response) args st :
  truthy (stored_token st) = false ->
  xero_token_required function args st = (Ok (Redirect "login"), st).
Proof.
  intros Ht. unfold xero_token_required, bind.
  rewrite obtain_reads_stored, Ht. reflexivity.
Qed.

Lemma gate_passes_token_value {A} (function : A -> M Response) args st :
  token_value (stored_token st) ->
  xero_token_required function args st = function args st.
Proof. intros Hv. apply gate_passes, truthy_token_value, Hv. Qed.

(** C5. The gate is a presence check: whenever the session holds a token
    value, whatever its fields and whatever the time (so also a token whose
    [expires_at] has passed), the gate runs the wrapped operation on the
    same arguments from the same state and returns its result and final
    state unchanged; it looks at no expiry and issues no call of its own. *)
Theorem gate_is_presence_check {A} (function : A -> M Response) (args : A)
    (st : State) :
  token_value (stored_token st) ->
  xero_token_required function args st = function args st.
Proof.
  intros (d & Hd & Hne). unfold xero_token_required, bind.
  rewrite obtain_reads_stored, Hd. simpl.
  by rewrite bool_decide_eq_false_2.
Qed.

Lemma gate_is_presence_check_witness :
  token_value (stored_token stale_session)
  /\ stale_token !! "expires_at" = Some (VNum 100)
  /\ now (world stale_session) = 1000
  /\ xero_token_required (export_token_view) tt stale_session
     = export_token_view tt stale_session.
Proof.
  assert (Hv : token_value (stored_token stale_session)).
  { exists stale_token. split; [reflexivity|].
    intros H. apply (f_equal (fun m => m !! "expires_at")) in H.
    vm_compute in H. discriminate H. }
  split; [exact Hv|]. split; [reflexivity|]. split; [reflexivity|].
  apply (gate_is_presence_check export_token_view tt stale_session Hv).
Defined.

(** ** Home page *)

(** C10. The home page never fails: for every state it returns the
    rendered page of the stored token's fields and leaves the state as it
    was; with no stored token the fields are those of the empty mapping. *)
Theorem index_total (st : State) :
  index st
    = (Ok (RenderTemplate "code.html" "Home | oauth token"
             (JsonDumps match stored_token st with
                        | PDict d => d
                        | PNone => ∅
                        end) None None), st)
  /\ index anonymous
    = (Ok (RenderTemplate "code.html" "Home | oauth token" (JsonDumps ∅)
             None None), anonymous).
Proof.
  split; [|reflexivity].
  unfold index, bind. rewrite obtain_reads_stored.
  destruct (stored_token st) as [|d] eqn:Hs; [reflexivity|].
  unfold py_or. simpl. destruct (bool_decide (d = ∅)) eqn:Hd; simpl.
  - apply bool_decide_eq_true_1 in Hd. by subst.
  - reflexivity.
Qed.

(** ** OAuth2 callback *)

Lemma denied_when_lacking response :
  lacks_access_token response ->
  match response with
  | PNone => true
  | PDict d => match dict_get d "access_token" with VNone => true | _ => false end
  end = true.
Proof.
  intros [-> | (d & -> & Hd)]; [reflexivity|].
  unfold dict_get. by rewrite Hd.
Qed.

(** C4. When the OAuth client's authorised response is absent or has no
    [access_token] field, the callback answers with the access-denied body
    built from that response, which is not a redirect to the home page, and
    it never runs the token saver: the state it leaves is the state the
    OAuth client left, so the stored token is the one from before. *)
Theorem callback_denied_stores_nothing (xero : RemoteApp) (st st1 : State)
    (response : pyval) :
  authorized_response xero st = (Ok response, st1) ->
  lacks_access_token response ->
  oauth_callback xero st
    = (Ok (FormatBody "Access denied: response=%s" response), st1)
  /\ FormatBody "Access denied: response=%s" response <> Redirect "index"
  /\ stored_token (snd (oauth_callback xero st)) = stored_token st1.
Proof.
  intros Hresp Hlack.
  assert (Hrun : oauth_callback xero st
                 = (Ok (FormatBody "Access denied: response=%s" response), st1)).
  { unfold oauth_callback, bind, try_except_else. rewrite Hresp.
    unfold ret at 1. cbv beta iota.
    rewrite (denied_when_lacking response Hlack). reflexivity. }
  split; [exact Hrun|]. split; [discriminate|]. by rewrite Hrun.
Qed.

Lemma callback_denied_stores_nothing_witness :
  let response := PDict {[ "error" := VStr "access_denied" ]} in
  let st := stale_session in
  authorized_response (answering_app response) st = (Ok response, st)
  /\ lacks_access_token response
  /\ oauth_callback (answering_app response) st
     = (Ok (FormatBody "Access denied: response=%s" response), st)
  /\ stored_token (snd (oauth_callback (answering_app response) st))
     = PDict stale_token.
Proof.
  intros response st.
  assert (Hresp : authorized_response (answering_app response) st
                  = (Ok response, st)) by reflexivity.
  assert (Hlack : lacks_access_token response).
  { right. exists {[ "error" := VStr "access_denied" ]}.
    split; [reflexivity | vm_compute; reflexivity]. }
  destruct (callback_denied_stores_nothing
              (answering_app response) st st response Hresp Hlack)
    as (Hrun & _ & Hkeep).
  split; [exact Hresp|]. split; [exact Hlack|]. split; [exact Hrun|].
  rewrite Hkeep. reflexivity.
Defined.

(** ** Tenant resolver *)

Lemma scan_connections_first connections :
  first_organisation connections (scan_connections connections).
Proof.
  induction connections as [|c rest IH]; simpl.
  - constructor.
  - destruct (String.eqb (tenant_type c) "ORGANISATION") eqn:Hc.
    + apply String.eqb_eq in Hc.
      exists [], c, rest. repeat split; [constructor | exact Hc].
    + apply String.eqb_neq in Hc.
      destruct (scan_connections rest) as [tid|]; simpl in *.
      * destruct IH as (before & c' & after & -> & Hbefore & Hc' & Htid).
        exists (c :: before), c', after. repeat split; try done.
        constructor; done.
      * constructor; done.
Qed.

Lemma resolver_without_token api_client st :
  truthy (stored_token st) = false ->
  get_xero_tenant_id api_client st = (Ok None, st).
Proof.
  intros Ht. unfold get_xero_tenant_id, bind.
  by rewrite obtain_reads_stored, Ht.
Qed.

Lemma resolver_with_token api_client st :
  truthy (stored_token st) = true ->
  get_xero_tenant_id api_client st
  = (connections <- get_connections api_client ;;
     ret (scan_connections connections)) st.
Proof.
  intros Ht. unfold get_xero_tenant_id at 1. unfold bind at 1.
  by rewrite obtain_reads_stored, Ht.
Qed.

(** C3. Tenant resolution.  With no stored token the resolver returns
    absent without calling the identity endpoint.  With a token, for the
    connection list the identity call returns, it returns the tenant id of
    the first connection in that order whose type is ORGANISATION, and
    absent when there is none; the result is a function of that list.  For
    the connections A (BANK), B (ORGANISATION), C (ORGANISATION) the answer
    is B, and for A (BANK) alone it is absent. *)
Theorem tenant_resolution (api_client : ApiClient) (st : State) :
  (truthy (stored_token st) = false ->
     get_xero_tenant_id api_client st = (Ok None, st))
  /\ (truthy (stored_token st) = true ->
      forall connections st',
        get_connections api_client st = (Ok connections, st') ->
        exists resolved,
          get_xero_tenant_id api_client st = (Ok resolved, st')
          /\ resolved = scan_connections connections
          /\ first_organisation connections resolved)
  /\ (truthy (stored_token st) = true ->
      forall st',
        get_connections api_client st = (Ok three_connections, st') ->
        get_xero_tenant_id api_client st = (Ok (Some "B"), st'))
  /\ (truthy (stored_token st) = true ->
      forall st',
        get_connections api_client st
          = (Ok [ {| tenant_id := "A"; tenant_type := "BANK" |} ], st') ->
        get_xero_tenant_id api_client st = (Ok None, st')).
Proof.
  assert (Hrun : truthy (stored_token st) = true ->
                 forall connections st',
                   get_connections api_client st = (Ok connections, st') ->
                   get_xero_tenant_id api_client st
                   = (Ok (scan_connections connections), st')).
  { intros Ht connections st' Hc. unfold get_xero_tenant_id, bind.
    rewrite obtain_reads_stored, Ht. simpl. by rewrite Hc. }
  repeat split.
  - intros Ht. unfold get_xero_tenant_id, bind.
    by rewrite obtain_reads_stored, Ht.
  - intros Ht connections st' Hc. exists (scan_connections connections).
    repeat split; [by apply Hrun | apply scan_connections_first].
  - intros Ht st' Hc. by rewrite (Hrun Ht _ _ Hc).
  - intros Ht st' Hc. by rewrite (Hrun Ht _ _ Hc).
Qed.

Lemma tenant_resolution_witness :
  get_xero_tenant_id (listing_client three_connections) anonymous
    = (Ok None, anonymous)
  /\ get_xero_tenant_id (listing_client three_connections) stale_session
     = (Ok (Some "B"), stale_session)
  /\ get_xero_tenant_id
       (listing_client [ {| tenant_id := "A"; tenant_type := "BANK" |} ])
       stale_session
     = (Ok None, stale_session).
Proof.
  split; [|split].
  - destruct (tenant_resolution (listing_client three_connections) anonymous)
      as (Habsent & _).
    apply Habsent. reflexivity.
  - destruct (tenant_resolution (listing_client three_connections) stale_session)
      as (_ & _ & Hthree & _).
    apply Hthree; [vm_compute; reflexivity | reflexivity].
  - destruct (tenant_resolution
                (listing_client [ {| tenant_id := "A"; tenant_type := "BANK" |} ])
                stale_session) as (_ & _ & _ & Hbank).
    apply Hbank; [vm_compute; reflexivity | reflexivity].
Defined.

(** ** Existence checks *)

Lemma existing_invoices_kept api_client tenant invoice_ids :
  forall exists_array st,
  exists kept st',
    existing_invoices api_client tenant invoice_ids exists_array st
      = (Ok (exists_array ++ kept)%list, st')
    /\ kept_ids api_client tenant invoice_ids st kept st'.
Proof.
  induction invoice_ids as [|invoice_id rest IH]; intros exists_array st.
  - exists [], st. split; [|constructor].
    simpl. unfold ret. by rewrite app_nil_r.
  - simpl. unfold try_except_else.
    destruct (accounting_get_invoice api_client tenant invoice_id st)
      as [[invoice|e] st1] eqn:Hfetch.
    + destruct (IH (exists_array ++ [invoice_id])%list st1)
        as (kept & st' & Hrun & Hkept).
      exists (invoice_id :: kept), st'. split.
      * rewrite Hrun. by rewrite <- app_assoc.
      * eapply kept_found; eassumption.
    + destruct (IH exists_array st1) as (kept & st' & Hrun & Hkept).
      exists kept, st'. split; [exact Hrun|].
      eapply kept_missing; eassumption.
Qed.

(** C9 (amended). The existence checks absorb every exception of the
    fetch, and only those.  Once the tenant has been resolved,
    [check_invoice_bool] returns [True] when the fetch returns and [False]
    when it raises, and [check_invoices_bool] returns, in order, exactly the
    ids whose fetch returned; neither raises.  The tenant is resolved before
    the [try] block: an exception raised there leaves both helpers as it
    is. *)
Theorem existence_checks_absorb_fetch_errors (api_client : ApiClient)
    (invoice_id : string) (invoice_ids : list string) (st : State) :
  match get_xero_tenant_id api_client st with
  | (Ok tenant, st1) =>
      check_invoice_bool api_client invoice_id st
        = (Ok (returned (fst (accounting_get_invoice api_client tenant invoice_id st1))),
           snd (accounting_get_invoice api_client tenant invoice_id st1))
      /\ exists kept st',
           check_invoices_bool api_client invoice_ids st = (Ok kept, st')
           /\ kept_ids api_client tenant invoice_ids st1 kept st'
  | (Raise e, st1) =>
      check_invoice_bool api_client invoice_id st = (Raise e, st1)
      /\ check_invoices_bool api_client invoice_ids st = (Raise e, st1)
  end.
Proof.
  unfold check_invoice_bool, check_invoices_bool, bind, try_except_else.
  destruct (get_xero_tenant_id api_client st) as [[tenant|e] st1]; [|done].
  split.
  - by destruct (accounting_get_invoice api_client tenant invoice_id st1)
      as [[invoice|e] st2].
  - destruct (existing_invoices_kept api_client tenant invoice_ids [] st1)
      as (kept & st' & Hrun & Hkept).
    exists kept, st'. by split.
Qed.

(** C9 as stated fails: with a stored token and the identity endpoint out
    of reach, tenant resolution raises before the [try] block is entered
    and both helpers pass the exception on to their caller. *)
Lemma existence_checks_propagate_resolver_error :
  check_invoice_bool offline_client sample_invoice_id stale_session
    = (Raise connection_error, stale_session)
  /\ check_invoices_bool offline_client [sample_invoice_id] stale_session
    = (Raise connection_error, stale_session)
  /\ ~ (exists found st',
          check_invoice_bool offline_client sample_invoice_id stale_session
          = (Ok found, st')).
Proof.
  assert (Hrun : check_invoice_bool offline_client sample_invoice_id stale_session
                 = (Raise connection_error, stale_session))
    by (vm_compute; reflexivity).
  split; [exact Hrun|]. split; [vm_compute; reflexivity|].
  intros (found & st' & Hok). rewrite Hrun in Hok. discriminate Hok.
Qed.

(** ** Authentication errors *)

(** C8 (amended). Of the authentication-class errors only the missing token
    is resolved by a redirect: every gate-wrapped operation answers a
    session without token with the redirect to login and leaves the state
    as it was.  A failure of the authorization-code exchange is printed by
    the callback and raised again, and an exception of the forced refresh
    leaves the [refresh_token] handler as it is; both reach the caller as
    exceptions. *)
Theorem auth_errors_redirect_or_raise (api_client : ApiClient)
    (xero : RemoteApp) (st : State) :
  (truthy (stored_token st) = false ->
     forall view,
       protected api_client view st = (Ok (Redirect "login"), st))
  /\ (forall e st1,
        authorized_response xero st = (Raise e, st1) ->
        oauth_callback xero st = (Raise e, snd (print e st1)))
  /\ (token_value (stored_token st) ->
      forall e st1,
        refresh_oauth2_token api_client st = (Raise e, st1) ->
        protected api_client refresh_token st = (Raise e, st1)).
Proof.
  repeat split.
  - intros Ht view. unfold protected. by apply gate_redirects.
  - intros e st1 Hresp. unfold oauth_callback, bind, try_except_else.
    rewrite Hresp. reflexivity.
  - intros Hv e st1 Hrefresh. unfold protected.
    rewrite gate_passes_token_value by exact Hv.
    simpl. unfold refresh_token_view, bind.
    rewrite obtain_reads_stored, Hrefresh. reflexivity.
Qed.

Lemma auth_errors_redirect_or_raise_witness :
  protected offline_client get_invoices anonymous
    = (Ok (Redirect "login"), anonymous)
  /\ oauth_callback failing_app anonymous
     = (Raise (OtherException "OAuthException" "invalid_grant"),
        snd (print (OtherException "OAuthException" "invalid_grant") anonymous))
  /\ protected offline_client refresh_token stale_session
     = (Raise connection_error, stale_session).
Proof.
  split; [|split].
  - destruct (auth_errors_redirect_or_raise offline_client failing_app anonymous)
      as (Hgate & _).
    apply Hgate. reflexivity.
  - destruct (auth_errors_redirect_or_raise offline_client failing_app anonymous)
      as (_ & Hcallback & _).
    apply Hcallback. reflexivity.
  - destruct (auth_errors_redirect_or_raise offline_client failing_app
                stale_session) as (_ & _ & Hrefresh).
    apply Hrefresh; [|reflexivity].
    exists stale_token. split; [reflexivity|].
    intros H. apply (f_equal (fun m => m !! "expires_at")) in H.
    vm_compute in H. discriminate H.
Defined.

(** C8 as stated fails: when the authorization-code exchange fails, the
    callback prints the exception and raises it again; the caller gets the
    exception, not a redirect. *)
Lemma callback_reraises_exchange_failure :
  oauth_callback failing_app anonymous
    = (Raise (OtherException "OAuthException" "invalid_grant"),
       {| session := session anonymous;
          world := {| now := 1000; calls := [];
                      stdout := [OtherException "OAuthException" "invalid_grant"] |} |})
  /\ ~ (exists endpoint st',
          oauth_callback failing_app anonymous = (Ok (Redirect endpoint), st')).
Proof.
  split; [reflexivity|].
  intros (endpoint & st' & Hok). vm_compute in Hok. discriminate Hok.
Qed.

(** ** Routes outside the gate *)

(** C2. The claim holds for the decorated views and fails for
    [check_invoice] and [check_invoices], which issue accounting calls but
    carry no decorator.  For a first request (no stored token): every
    decorated view answers with the redirect to login and leaves the state
    untouched; [check_invoice] attempts the fetch with an absent tenant and
    renders the "Invoice check" page; [check_invoices] never answers with
    the redirect to login. *)
Theorem check_invoice_routes_skip_gate (api_client : ApiClient) :
  (forall view,
     protected api_client view anonymous = (Ok (Redirect "login"), anonymous))
  /\ (exists code sub_title,
        check_invoice api_client anonymous
        = (Ok (RenderTemplate "code.html" "Invoice check" code (Some sub_title) None),
           snd (accounting_get_invoice api_client None sample_invoice_id anonymous)))
  /\ (forall st',
        check_invoices api_client anonymous <> (Ok (Redirect "login"), st')).
Proof.
  split; [|split].
  - intros view. unfold protected. by apply gate_redirects.
  - unfold check_invoice, bind, try_except_else.
    rewrite (resolver_without_token api_client anonymous eq_refl).
    destruct (accounting_get_invoice api_client None sample_invoice_id anonymous)
      as [[invoice|e] st1]; simpl; eexists _, _; reflexivity.
  - intros st'. unfold check_invoices, check_invoices_bool, bind.
    rewrite (resolver_without_token api_client anonymous eq_refl).
    destruct (existing_invoices_kept api_client None
                [sample_invoice_id; "7e024960-d582-452c-8b62-85308d99595b"]
                [] anonymous) as (kept & st1 & Hrun & _).
    rewrite app_nil_l in Hrun. cbv beta iota zeta.
    rewrite (resolver_without_token api_client anonymous eq_refl), Hrun.
    destruct (render_existing api_client None kept (Literal "") "" st1)
      as [[rendered|e] st2]; unfold ret; intros Heq; discriminate Heq.
Qed.

(** ** Logout *)

Lemma after_logout {A} (m : M A) st :
  (logout ;;; m) st = m (snd (logout st)).
Proof. reflexivity. Qed.

Lemma no_token_after_logout st : stored_token (snd (logout st)) = PNone.
Proof. unfold logout, bind. simpl. apply stored_token_after_store. Qed.

Lemma check_invoice_without_token api_client st :
  truthy (stored_token st) = false ->
  exists code sub_title,
    check_invoice api_client st
    = (Ok (RenderTemplate "code.html" "Invoice check" code (Some sub_title) None),
       snd (accounting_get_invoice api_client None sample_invoice_id st)).
Proof.
  intros Ht. unfold check_invoice, bind, try_except_else.
  rewrite (resolver_without_token api_client st Ht).
  destruct (accounting_get_invoice api_client None sample_invoice_id st)
    as [[invoice|e] st1]; simpl; eexists _, _; reflexivity.
Qed.

Lemma check_invoices_never_redirects api_client st endpoint st' :
  check_invoices api_client st <> (Ok (Redirect endpoint), st').
Proof.
  unfold check_invoices. unfold bind at 1.
  destruct (get_xero_tenant_id api_client st) as [[tenant|e] st1];
    [|discriminate].
  cbv zeta. unfold bind at 1.
  destruct (check_invoices_bool api_client
              [sample_invoice_id; "7e024960-d582-452c-8b62-85308d99595b"] st1)
    as [[kept|e] st2]; [|discriminate].
  unfold bind.
  destruct (render_existing api_client tenant kept (Literal "") "" st2)
    as [[rendered|e] st3]; discriminate.
Qed.

(** C6. The claim holds for the decorated views and fails for
    [check_invoice] and [check_invoices], the two routes that issue
    accounting calls without the decorator.  After logout the stored token
    is [None]; every decorated view called next redirects to login and
    leaves the state as logout left it.  [check_invoice] called next
    attempts the fetch with an absent tenant and renders the "Invoice
    check" page, and [check_invoices] called next never answers with a
    redirect. *)
Theorem logout_then_check_routes_render (api_client : ApiClient) (st : State) :
  fst (logout st) = Ok (Redirect "index")
  /\ stored_token (snd (logout st)) = PNone
  /\ (forall view,
        (logout ;;; protected api_client view) st
        = (Ok (Redirect "login"), snd (logout st)))
  /\ (exists code sub_title,
        (logout ;;; check_invoice api_client) st
        = (Ok (RenderTemplate "code.html" "Invoice check" code (Some sub_title)
                 None),
           snd (accounting_get_invoice api_client None sample_invoice_id
                  (snd (logout st)))))
  /\ (forall st',
        (logout ;;; check_invoices api_client) st
        <> (Ok (Redirect "login"), st')).
Proof.
  pose proof (no_token_after_logout st) as Hs.
  split; [reflexivity|]. split; [exact Hs|]. split; [|split].
  - intros view. rewrite after_logout. unfold protected.
    apply gate_redirects. by rewrite Hs.
  - rewrite after_logout. apply check_invoice_without_token. by rewrite Hs.
  - intros st'. rewrite after_logout. apply check_invoices_never_redirects.
Qed.

(** ** Refresh on expiry *)

Lemma stored_token_refreshed old new st :
  stored_token (refreshed old new st) = PDict new.
Proof. unfold refreshed. apply stored_token_after_store. Qed.

Lemma refresh_exchange_succeeds env old new st :
  token_endpoint env old = Ok new ->
  refresh_exchange env old st = (Ok new, refreshed old new st).
Proof.
  intros Hnew. unfold refresh_exchange, bind, lift. simpl. by rewrite Hnew.
Qed.

Lemma refresh_gate_expired env old new st :
  stored_token st = PDict old ->
  expires_at_passed (now (world st)) old = true ->
  token_endpoint env old = Ok new ->
  refresh_gate env st = (Ok new, refreshed old new st).
Proof.
  intros Hold Hpassed Hnew. unfold refresh_gate, bind.
  rewrite obtain_reads_stored, Hold. unfold clock. rewrite Hpassed.
  by apply refresh_exchange_succeeds.
Qed.

Lemma refresh_gate_unexpired env token st :
  stored_token st = PDict token ->
  expires_at_passed (now (world st)) token = false ->
  refresh_gate env st = (Ok token, st).
Proof.
  intros Htoken Hvalid. unfold refresh_gate, bind.
  rewrite obtain_reads_stored, Htoken. unfold clock. by rewrite Hvalid.
Qed.

Lemma identity_call_expired env old new st :
  stored_token st = PDict old ->
  expires_at_passed (now (world st)) old = true ->
  token_endpoint env old = Ok new ->
  identity_call env st
  = (identity_endpoint env new, logged (IdentityCall new) (refreshed old new st)).
Proof.
  intros Hold Hpassed Hnew. unfold identity_call, bind.
  rewrite (refresh_gate_expired env old new st Hold Hpassed Hnew).
  unfold lift. simpl. by destruct (identity_endpoint env new).
Qed.

Lemma identity_call_unexpired env token st :
  stored_token st = PDict token ->
  expires_at_passed (now (world st)) token = false ->
  identity_call env st
  = (identity_endpoint env token, logged (IdentityCall token) st).
Proof.
  intros Htoken Hvalid. unfold identity_call, bind.
  rewrite (refresh_gate_unexpired env token st Htoken Hvalid).
  unfold lift. simpl. by destruct (identity_endpoint env token).
Qed.

Lemma accounting_call_unexpired env operation tenant request token st :
  stored_token st = PDict token ->
  expires_at_passed (now (world st)) token = false ->
  accounting_call env operation tenant request st
  = (accounting_endpoint env token tenant request,
     logged (AccountingCall operation token) st).
Proof.
  intros Htoken Hvalid. unfold accounting_call, bind.
  rewrite (refresh_gate_unexpired env token st Htoken Hvalid).
  unfold lift. simpl. by destruct (accounting_endpoint env token tenant request).
Qed.

Lemma expired_is_token_value current token :
  expires_at_passed current token = true -> token_value (PDict token).
Proof.
  intros Hpassed. exists token. split; [reflexivity|]. intros ->.
  unfold expires_at_passed in Hpassed. by rewrite lookup_empty in Hpassed.
Qed.

Lemma refresh_count_one log old downstream :
  Forall (fun c => is_refresh c = false) downstream ->
  refresh_count (log ++ RefreshExchange old :: downstream)%list
  = S (refresh_count log).
Proof.
  intros Hdown. unfold refresh_count.
  rewrite List.filter_app, length_app. simpl.
  assert (Hnone : List.filter is_refresh downstream = []).
  { induction Hdown as [|c rest Hc _ IH]; simpl; [done|]. by rewrite Hc. }
  rewrite Hnone. simpl. lia.
Qed.

Lemma settled_refreshed old new st : settled old new st (refreshed old new st).
Proof.
  split; [apply stored_token_refreshed|]. split; [reflexivity|].
  exists []. split; [reflexivity | constructor].
Qed.

Lemma settled_logged old new st c s :
  is_refresh c = false ->
  settled old new st s -> settled old new st (logged c s).
Proof.
  intros Hc (Htoken & Hnow & downstream & Hcalls & Hdown).
  split; [exact Htoken|]. split; [exact Hnow|].
  exists (downstream ++ [c])%list. split.
  - simpl. rewrite Hcalls. by rewrite <- app_assoc.
  - apply Forall_app. split; [exact Hdown | by repeat constructor].
Qed.

Lemma settled_once old new st s :
  settled old new st s ->
  refreshed_once old new st s
  /\ refresh_count (calls (world s)) = S (refresh_count (calls (world st))).
Proof.
  intros (Htoken & _ & downstream & Hcalls & Hdown).
  split; [split; [by exists downstream | exact Htoken]|].
  rewrite Hcalls. by apply refresh_count_one.
Qed.

Lemma settles_ret {A} old new st (a : A) : keeps_settled old new st (ret a).
Proof. by intros s. Qed.

Lemma settles_raise {A} old new st (e : exn) :
  keeps_settled old new st (@raise A e).
Proof. by intros s. Qed.

Lemma settles_bind {A B} old new st (m : M A) (k : A -> M B) :
  keeps_settled old new st m -> (forall a, keeps_settled old new st (k a)) ->
  keeps_settled old new st (bind m k).
Proof.
  intros Hm Hk s Hs. unfold bind. specialize (Hm s Hs).
  destruct (m s) as [[a|e] s1]; simpl in Hm; [|exact Hm].
  by apply Hk.
Qed.

Lemma settles_try {A B} old new st (body : M A) (handler : exn -> M B)
    (els : A -> M B) :
  keeps_settled old new st body ->
  (forall e, keeps_settled old new st (handler e)) ->
  (forall a, keeps_settled old new st (els a)) ->
  keeps_settled old new st (try_except_else body handler els).
Proof.
  intros Hbody Hhandler Hels s Hs. unfold try_except_else.
  specialize (Hbody s Hs).
  destruct (body s) as [[a|e] s1]; simpl in Hbody.
  - by apply Hels.
  - by apply Hhandler.
Qed.

Section ExpiredToken.

Variable env : Env.
Variables old new : gmap string value.
Variable st : State.
Hypothesis Hold : stored_token st = PDict old.
Hypothesis Hpassed : expires_at_passed (now (world st)) old = true.
Hypothesis Hnew : token_endpoint env old = Ok new.
Hypothesis Hvalid : expires_at_passed (now (world st)) new = false.

Lemma settles_accounting operation tenant request :
  keeps_settled old new st (accounting_call env operation tenant request).
Proof.
  intros s Hs. pose proof Hs as (Htoken & Hnow & _).
  rewrite (accounting_call_unexpired env operation tenant request new s Htoken)
    by (by rewrite Hnow).
  by apply settled_logged.
Qed.

Lemma settles_identity : keeps_settled old new st (identity_call env).
Proof.
  intros s Hs. pose proof Hs as (Htoken & Hnow & _).
  rewrite (identity_call_unexpired env new s Htoken) by (by rewrite Hnow).
  by apply settled_logged.
Qed.

Lemma settles_resolver :
  keeps_settled old new st (get_xero_tenant_id (sdk env)).
Proof.
  unfold get_xero_tenant_id.
  apply settles_bind; [by intros s|]. intros token.
  destruct (negb (truthy token)); [apply settles_ret|].
  apply settles_bind; [apply settles_identity | intros; apply settles_ret].
Qed.

Lemma settles_existing tenant invoice_ids :
  forall exists_array,
    keeps_settled old new st
      (existing_invoices (sdk env) tenant invoice_ids exists_array).
Proof.
  induction invoice_ids as [|invoice_id rest IH]; intros exists_array; simpl.
  - apply settles_ret.
  - apply settles_try;
      [apply settles_accounting | intros; apply IH | intros; apply IH].
Qed.

Lemma settles_render tenant invoice_ids :
  forall code sub_title,
    keeps_settled old new st
      (render_existing (sdk env) tenant invoice_ids code sub_title).
Proof.
  induction invoice_ids as [|invoice_id rest IH]; intros code sub_title;
    cbn [render_existing].
  - apply settles_ret.
  - apply settles_bind; [apply settles_accounting | intros; apply IH].
Qed.

(** The identity call of the first tenant resolution meets the expired
    token: one exchange, then the call. *)
Lemma resolver_expired :
  get_xero_tenant_id (sdk env) st
  = (match identity_endpoint env new with
     | Ok connections => Ok (scan_connections connections)
     | Raise e => Raise e
     end, logged (IdentityCall new) (refreshed old new st)).
Proof.
  rewrite resolver_with_token
    by (rewrite Hold; eapply truthy_token_value, expired_is_token_value, Hpassed).
  unfold bind. simpl get_connections.
  rewrite (identity_call_expired env old new st Hold Hpassed Hnew).
  by destruct (identity_endpoint env new).
Qed.

(** A handler that starts by resolving the tenant and goes on with calls
    that keep a settled state settled ends settled. *)
Lemma resolver_first {A} (k : option string -> M A) :
  (forall tenant, keeps_settled old new st (k tenant)) ->
  settled old new st (snd ((tenant <- get_xero_tenant_id (sdk env) ;; k tenant) st)).
Proof.
  intros Hk. unfold bind. rewrite resolver_expired.
  assert (Hs : settled old new st
                 (logged (IdentityCall new) (refreshed old new st)))
    by (apply settled_logged; [reflexivity | apply settled_refreshed]).
  destruct (identity_endpoint env new) as [connections|e]; [|exact Hs].
  by apply Hk.
Qed.

Lemma gate_open view :
  protected (sdk env) view st = view_function (sdk env) view tt st.
Proof.
  unfold protected. apply gate_passes_token_value.
  rewrite Hold. eapply expired_is_token_value, Hpassed.
Qed.

Lemma forced_refresh_expired :
  forced_refresh env st = (Ok (PDict new), refreshed old new st).
Proof.
  unfold forced_refresh, bind. rewrite obtain_reads_stored, Hold.
  by rewrite (refresh_exchange_succeeds env old new st Hnew).
Qed.

Ltac settle :=
  repeat first
    [ apply settles_ret | apply settles_raise
    | apply settles_accounting | apply settles_resolver
    | apply settles_existing | apply settles_render
    | apply settles_bind; [|intros ?]
    | apply settles_try; [|intros [? ?|? ?]|intros ?] ].

Lemma views_settle view :
  calls_api_client view = true ->
  settled old new st (snd (protected (sdk env) view st)).
Proof.
  intros Hview. rewrite gate_open.
  destruct view; try discriminate Hview; simpl view_function.
  - unfold get_invoices_view. apply resolver_first. intros tenant. settle.
  - unfold get_invoice_id_view. apply resolver_first. intros tenant. settle.
  - unfold get_invoice_num_view. apply resolver_first. intros tenant. settle.
  - unfold create_invoices_view. apply resolver_first. intros tenant.
    cbv zeta. settle.
  - unfold get_invoice_view. apply resolver_first. intros tenant. settle.
  - unfold create_invoice_view. apply resolver_first. intros tenant.
    cbv zeta. settle.
  - unfold update_invoice_view. apply resolver_first. intros tenant.
    cbv zeta. settle.
  - unfold refresh_token_view, bind. rewrite obtain_reads_stored.
    simpl refresh_oauth2_token. rewrite forced_refresh_expired.
    apply settled_refreshed.
Qed.

Lemma check_routes_settle :
  settled old new st (snd (check_invoice (sdk env) st))
  /\ settled old new st (snd (check_invoices (sdk env) st)).
Proof.
  split.
  - unfold check_invoice. apply resolver_first. intros tenant. cbv zeta. settle.
  - unfold check_invoices. apply resolver_first. intros tenant.
    cbv zeta. unfold check_invoices_bool. settle.
Qed.

End ExpiredToken.




(** * Further properties of the handlers *)

(** ** Gate and token store *)

Lemma falsy_cases v :
  truthy v = false <-> v = PNone \/ v = PDict ∅.
Proof.
  split.
  - destruct v as [|d]; [by left|]. simpl. intros Hd. right.
    apply negb_false_iff, bool_decide_eq_true_1 in Hd. by subst.
  - by intros [-> | ->].
Qed.

(** X1. The gate answers with the redirect to login, whatever function it
    wraps and without running it, exactly when the token slot is missing,
    holds [None] or holds an empty mapping. *)
Theorem gate_redirects_iff_no_token (st : State) :
  (forall (A : Type) (function : A -> M Response) (args : A),
     xero_token_required function args st = (Ok (Redirect "login"), st))
  <-> (stored_token st = PNone \/ stored_token st = PDict ∅).
Proof.
  split.
  - intros Hall. apply falsy_cases.
    destruct (truthy (stored_token st)) eqn:Ht; [|reflexivity].
    specialize (Hall unit (fun _ => ret (Redirect "index")) tt).
    rewrite gate_passes in Hall by exact Ht. discriminate Hall.
  - intros Hfalsy A function args. by apply gate_redirects, falsy_cases.
Qed.

(** X2. The token saver writes the token slot and nothing else: of two
    stores in a row only the second is visible, the other session keys are
    as before, and the world is untouched. *)
Theorem store_overwrites_only_token (first second : pyval) (st : State) :
  snd ((store_xero_oauth2_token first ;;; store_xero_oauth2_token second) st)
    = snd (store_xero_oauth2_token second st)
  /\ delete "token" (items (session (snd (store_xero_oauth2_token first st))))
     = delete "token" (items (session st))
  /\ world (snd (store_xero_oauth2_token first st)) = world st.
Proof.
  split; [|split].
  - unfold bind. simpl. by rewrite insert_insert_eq.
  - simpl. by rewrite delete_insert_eq.
  - reflexivity.
Qed.

(** X5. Logout keeps the token key and sets it to [None] instead of
    deleting it; it touches no other key and nothing of the world, and a
    second logout changes nothing more. *)
Theorem logout_clears_only_token (st : State) :
  items (session (snd (logout st))) !! "token" = Some PNone
  /\ delete "token" (items (session (snd (logout st))))
     = delete "token" (items (session st))
  /\ world (snd (logout st)) = world st
  /\ snd ((logout ;;; logout) st) = snd (logout st).
Proof.
  unfold logout, bind. simpl. repeat split.
  - by rewrite lookup_insert_eq.
  - by rewrite delete_insert_eq.
  - by rewrite insert_insert_eq.
Qed.

(** X15. [export_token] never writes: for every client and state it leaves
    the state as it was, and it answers either with the gate's redirect or
    with the attachment built from exactly the stored token. *)
Theorem export_token_reads_only (api_client : ApiClient) (st : State) :
  protected api_client export_token st
  = (Ok (if truthy (stored_token st)
         then SendFile "token={!r}" (stored_token st) "x.python" true
                "oauth2_token.py"
         else Redirect "login"), st).
Proof.
  unfold protected. destruct (truthy (stored_token st)) eqn:Ht.
  - rewrite gate_passes by exact Ht. reflexivity.
  - by rewrite gate_redirects.
Qed.

(** ** Callback *)

Lemma granted_is_token_value response :
  grants_access response -> token_value response.
Proof.
  intros (d & v & -> & Hd & _). exists d. split; [reflexivity|].
  intros ->. by rewrite lookup_empty in Hd.
Qed.

Lemma callback_grants xero st st1 response :
  authorized_response xero st = (Ok response, st1) ->
  grants_access response ->
  oauth_callback xero st
  = (Ok (Redirect "index"), snd (store_xero_oauth2_token response st1)).
Proof.
  intros Hresp (d & v & -> & Hd & Hv).
  unfold oauth_callback, bind, try_except_else. rewrite Hresp.
  unfold ret at 1. cbv beta iota. unfold dict_get. rewrite Hd. simpl.
  by destruct v.
Qed.

Lemma callback_denies xero st st1 response :
  authorized_response xero st = (Ok response, st1) ->
  ~ grants_access response ->
  oauth_callback xero st
  = (Ok (FormatBody "Access denied: response=%s" response), st1).
Proof.
  intros Hresp Hno.
  unfold oauth_callback, bind, try_except_else. rewrite Hresp.
  unfold ret at 1. cbv beta iota.
  destruct response as [|d]; [reflexivity|].
  unfold dict_get. destruct (d !! "access_token") as [v|] eqn:Hd; [|reflexivity].
  destruct v; try reflexivity; exfalso; apply Hno; eexists _, _; eauto.
Qed.

(** X3. A callback whose authorised response carries an access token
    stores that response as the session token, marks the session modified
    and redirects to the home page; any decorated view called next passes
    the gate and runs its body. *)
Theorem callback_grant_authenticates (xero : RemoteApp) (api_client : ApiClient)
    (st st1 : State) (response : pyval) (view : ProtectedView) :
  authorized_response xero st = (Ok response, st1) ->
  grants_access response ->
  fst (oauth_callback xero st) = Ok (Redirect "index")
  /\ stored_token (snd (oauth_callback xero st)) = response
  /\ modified (session (snd (oauth_callback xero st))) = true
  /\ (oauth_callback xero ;;; protected api_client view) st
     = view_function api_client view tt (snd (oauth_callback xero st)).
Proof.
  intros Hresp Hgrant.
  pose proof (callback_grants xero st st1 response Hresp Hgrant) as Hrun.
  unfold bind at 1. rewrite Hrun. cbn [fst snd].
  repeat split.
  - apply stored_token_after_store.
  - unfold protected. apply gate_passes_token_value.
    rewrite (stored_token_after_store response st1).
    by apply granted_is_token_value.
Qed.

Lemma callback_grant_authenticates_witness :
  stored_token (snd (oauth_callback (answering_app (PDict fresh_token)) anonymous))
    = PDict fresh_token
  /\ (oauth_callback (answering_app (PDict fresh_token)) ;;;
      protected offline_client export_token) anonymous
     = export_token_view tt
         (snd (oauth_callback (answering_app (PDict fresh_token)) anonymous)).
Proof.
  assert (Hgrant : grants_access (PDict fresh_token)).
  { exists fresh_token, (VStr "new-access").
    split; [reflexivity|]. split; [vm_compute; reflexivity | discriminate]. }
  destruct (callback_grant_authenticates (answering_app (PDict fresh_token))
              offline_client anonymous anonymous (PDict fresh_token) export_token
              eq_refl Hgrant) as (_ & Hstored & _ & Hnext).
  split; [exact Hstored | exact Hnext].
Defined.

(** X4. The callback decides on the access token alone: it stores the
    response and redirects home when the response is a mapping whose
    [access_token] is present and not [None]; in every other case, also
    when the field is present with the value [None], it answers with the
    access-denied body and stores nothing. *)
Theorem callback_decision (xero : RemoteApp) (st st1 : State)
    (response : pyval) :
  authorized_response xero st = (Ok response, st1) ->
  (grants_access response
   /\ oauth_callback xero st
      = (Ok (Redirect "index"), snd (store_xero_oauth2_token response st1)))
  \/ (~ grants_access response
      /\ oauth_callback xero st
         = (Ok (FormatBody "Access denied: response=%s" response), st1)).
Proof.
  intros Hresp.
  assert (Hdec : grants_access response \/ ~ grants_access response).
  { destruct response as [|d]; [right; by intros (? & ? & ? & _)|].
    destruct (d !! "access_token") as [v|] eqn:Hd.
    - destruct v; try (left; eexists _, _; by eauto).
      right. intros (d' & v & [= <-] & Hv & Hne). congruence.
    - right. intros (d' & v & [= <-] & Hv & _). congruence. }
  destruct Hdec as [Hyes | Hno]; [left | right]; split; try done.
  - by apply callback_grants.
  - by apply callback_denies.
Qed.

Lemma callback_decision_witness :
  let response := PDict {[ "access_token" := VNone ]} in
  ~ grants_access response
  /\ oauth_callback (answering_app response) stale_session
     = (Ok (FormatBody "Access denied: response=%s" response), stale_session).
Proof.
  intros response.
  assert (Hno : ~ grants_access response).
  { intros (d & v & [= <-] & Hv & Hne). vm_compute in Hv. congruence. }
  destruct (callback_decision (answering_app response) stale_session
              stale_session response eq_refl) as [(Hyes & _) | Hdenied].
  - destruct (Hno Hyes).
  - exact Hdenied.
Defined.

(** ** Tenant resolver *)

(** X6. The first-match specification determines the resolver's answer: the
    scan returns the id of an ORGANISATION connection as soon as no
    connection before it has that type, whatever follows it, and it returns
    absent for a list without ORGANISATION connections. *)
Theorem scan_connections_complete (connections : list Connection)
    (resolved : option string) :
  first_organisation connections resolved ->
  scan_connections connections = resolved.
Proof.
  assert (Hskip : forall before rest,
            Forall (fun b => ~ is_organisation b) before ->
            scan_connections (before ++ rest) = scan_connections rest).
  { intros before rest Hbefore.
    induction Hbefore as [|b before Hb _ IH]; [reflexivity|]. simpl.
    by rewrite (proj2 (String.eqb_neq _ _) Hb). }
  destruct resolved as [tid|]; simpl.
  - intros (before & c & after & -> & Hbefore & Hc & <-).
    rewrite Hskip by exact Hbefore. simpl.
    by rewrite (proj2 (String.eqb_eq _ _) Hc).
  - intros Hnone. rewrite <- (app_nil_r connections). by rewrite Hskip.
Qed.

Lemma scan_connections_complete_witness :
  first_organisation three_connections (Some "B")
  /\ scan_connections three_connections = Some "B".
Proof.
  assert (Hfirst : first_organisation three_connections (Some "B")).
  { exists [ {| tenant_id := "A"; tenant_type := "BANK" |} ],
           {| tenant_id := "B"; tenant_type := "ORGANISATION" |},
           [ {| tenant_id := "C"; tenant_type := "ORGANISATION" |} ].
    repeat split. repeat constructor. discriminate. }
  split; [exact Hfirst|].
  apply (scan_connections_complete three_connections (Some "B") Hfirst).
Defined.

(** ** Accounting views *)

Lemma resolver_raises api_client st e st1 :
  token_value (stored_token st) ->
  get_connections api_client st = (Raise e, st1) ->
  get_xero_tenant_id api_client st = (Raise e, st1).
Proof.
  intros Hv Hc. rewrite resolver_with_token by by apply truthy_token_value.
  unfold bind. by rewrite Hc.
Qed.

(** X7. No handler guards the tenant resolution: when the identity call
    raises, every decorated view that makes an accounting call raises the
    same exception and makes no accounting call, also in the views with an
    [except AccountingBadRequestException] clause and also when the
    exception is of that class. *)
Theorem resolver_error_leaves_view (api_client : ApiClient)
    (view : ProtectedView) (st st1 : State) (e : exn) :
  token_value (stored_token st) ->
  get_connections api_client st = (Raise e, st1) ->
  accounting_view view = true ->
  protected api_client view st = (Raise e, st1).
Proof.
  intros Hv Hc Hview. unfold protected.
  rewrite gate_passes_token_value by exact Hv.
  pose proof (resolver_raises api_client st e st1 Hv Hc) as Hres.
  destruct view; try discriminate Hview; simpl view_function;
    [ unfold get_invoices_view | unfold get_invoice_id_view
    | unfold get_invoice_num_view | unfold create_invoices_view
    | unfold get_invoice_view | unfold create_invoice_view
    | unfold update_invoice_view ];
    unfold bind; by rewrite Hres.
Qed.

Lemma stale_session_has_token : token_value (stored_token stale_session).
Proof.
  exists stale_token. split; [reflexivity|].
  intros H. apply (f_equal (fun m => m !! "expires_at")) in H.
  vm_compute in H. discriminate H.
Qed.

Lemma resolver_error_leaves_view_witness :
  protected offline_client create_invoices stale_session
  = (Raise connection_error, stale_session).
Proof.
  apply (resolver_error_leaves_view offline_client create_invoices
           stale_session stale_session connection_error
           stale_session_has_token eq_refl eq_refl).
Defined.

Ltac run_view Hres Hcall :=
  simpl view_function;
  first [ progress unfold get_invoices_view
        | progress unfold get_invoice_id_view
        | progress unfold get_invoice_num_view
        | progress unfold create_invoices_view
        | progress unfold get_invoice_view
        | progress unfold create_invoice_view
        | progress unfold update_invoice_view ];
  unfold bind, try_except_else; rewrite Hres; cbv beta iota zeta;
  rewrite Hcall.

(** X8. A bad request is a page, not an error: in [create_invoices],
    [create_invoice] and [update_invoice], when the accounting call raises
    [AccountingBadRequestException], the view returns the rendered template
    whose code is the exception's error data and whose subtitle is
    "Error: " followed by the exception's reason. *)
Theorem bad_request_is_rendered (api_client : ApiClient) (view : ProtectedView)
    (st st1 st2 : State) (tenant : option string) (call : M Invoices)
    (reason error_data : string) :
  token_value (stored_token st) ->
  get_xero_tenant_id api_client st = (Ok tenant, st1) ->
  handles_bad_request view = true ->
  accounting_request api_client view tenant = Some call ->
  call st1 = (Raise (AccountingBadRequestException reason error_data), st2) ->
  exists title result_list,
    protected api_client view st
    = (Ok (RenderTemplate "code.html" title (JsonifyErrorData error_data)
             (Some ("Error: " +:+ reason)) result_list), st2).
Proof.
  intros Hv Hres Hview Hreq Hcall. unfold protected.
  rewrite gate_passes_token_value by exact Hv.
  destruct view; try discriminate Hview; injection Hreq as <-;
    run_view Hres Hcall; eexists _, _; reflexivity.
Qed.

Lemma bad_request_is_rendered_witness :
  protected (scripted_client three_connections only_sample) update_invoice
    stale_session
  = (Ok (RenderTemplate "code.html" "Updated Invoice"
           (JsonifyErrorData "ValidationException")
           (Some "Error: Bad Request") None), stale_session).
Proof.
  destruct (bad_request_is_rendered
              (scripted_client three_connections only_sample) update_invoice
              stale_session stale_session stale_session (Some "B")
              (accounting_update_invoice
                 (scripted_client three_connections only_sample) (Some "B")
                 "INV-001" {| invoices := [draft_invoice "INV-001" None] |})
              "Bad Request" "ValidationException"
              stale_session_has_token eq_refl eq_refl eq_refl eq_refl)
    as (title & result_list & Hrun).
  rewrite Hrun. vm_compute in Hrun. injection Hrun as <- <-. reflexivity.
Defined.

(** X9. Every other failure of the accounting call reaches the caller: an
    exception that is not an [AccountingBadRequestException] leaves each of
    the seven accounting views unchanged, and the four read views
    ([get_invoices], [get_invoice_id], [get_invoice_num], [get_invoice])
    have no handler at all, so there a bad request is raised too. *)
Theorem accounting_error_leaves_view (api_client : ApiClient)
    (view : ProtectedView) (st st1 st2 : State) (tenant : option string)
    (call : M Invoices) (e : exn) :
  token_value (stored_token st) ->
  get_xero_tenant_id api_client st = (Ok tenant, st1) ->
  accounting_request api_client view tenant = Some call ->
  call st1 = (Raise e, st2) ->
  handles_bad_request view = false \/ is_bad_request e = false ->
  protected api_client view st = (Raise e, st2).
Proof.
  intros Hv Hres Hreq Hcall Hwhy. unfold protected.
  rewrite gate_passes_token_value by exact Hv.
  destruct view; try discriminate Hreq; injection Hreq as <-;
    run_view Hres Hcall; try reflexivity;
    destruct Hwhy as [Hview | He]; try discriminate Hview;
    destruct e; try discriminate He; reflexivity.
Qed.

Lemma accounting_error_leaves_view_witness :
  protected (scripted_client three_connections only_sample) get_invoices
    stale_session
  = (Raise (AccountingBadRequestException "Bad Request" "ValidationException"),
     stale_session).
Proof.
  apply (accounting_error_leaves_view
           (scripted_client three_connections only_sample) get_invoices
           stale_session stale_session stale_session (Some "B")
           (accounting_get_invoices
              (scripted_client three_connections only_sample) (Some "B")
              (Some ["DRAFT"; "SUBMITTED"]) None)
           (AccountingBadRequestException "Bad Request" "ValidationException")
           stale_session_has_token eq_refl eq_refl eq_refl).
  left. reflexivity.
Defined.

Lemma creation_results_map created :
  forall result_list,
    creation_results created result_list
    = (result_list ++ map describe_created created)%list.
Proof.
  induction created as [|invoice rest IH]; intros result_list; simpl.
  - by rewrite app_nil_r.
  - unfold describe_created at 1.
    destruct (has_errors invoice); rewrite IH; by rewrite <- app_assoc.
Qed.

(** X10. When the accounting call of [create_invoices] returns, the page
    lists one line per returned invoice, in the returned order: the first
    validation message (or the empty string) after "Error: " for an invoice
    with errors, and "Invoice <number> created." otherwise. *)
Theorem create_invoices_reports_each (api_client : ApiClient)
    (st st1 st2 : State) (tenant : option string) (created : Invoices) :
  token_value (stored_token st) ->
  get_xero_tenant_id api_client st = (Ok tenant, st1) ->
  accounting_create_invoices api_client tenant
    {| invoices := [draft_invoice "INV-949" (Some (2026, 11, 12))] |} st1
    = (Ok created, st2) ->
  protected api_client create_invoices st
  = (Ok (RenderTemplate "code.html" "Create Multiple Invoices"
           (SerializeInvoices created) (Some "")
           (Some (ResultListOf (map describe_created (invoices created))))),
     st2).
Proof.
  intros Hv Hres Hcall. unfold protected.
  rewrite gate_passes_token_value by exact Hv.
  run_view Hres Hcall. by rewrite creation_results_map.
Qed.

Lemma create_invoices_reports_each_witness :
  protected (scripted_client three_connections echo) create_invoices
    stale_session
  = (Ok (RenderTemplate "code.html" "Create Multiple Invoices"
           (SerializeInvoices
              {| invoices := [draft_invoice "INV-949" (Some (2026, 11, 12))] |})
           (Some "") (Some (ResultListOf ["Invoice INV-949 created."]))),
     stale_session).
Proof.
  apply (create_invoices_reports_each (scripted_client three_connections echo)
           stale_session stale_session stale_session (Some "B")
           {| invoices := [draft_invoice "INV-949" (Some (2026, 11, 12))] |}
           stale_session_has_token eq_refl eq_refl).
Defined.

(** ** Existence-check routes *)

(** X11. [check_invoice] absorbs every exception of the fetch.  Once the
    tenant is resolved it always returns the "Invoice check" page: with the
    serialized invoice and "A invoice with invoice id ... exists." when the
    fetch returns, with an empty JSON string and "No invoice with invoice
    id ... exists." when the fetch raises, whatever the exception.  Only an
    exception of the tenant resolution leaves the route. *)
Theorem check_invoice_always_renders (api_client : ApiClient) (st : State) :
  match get_xero_tenant_id api_client st with
  | (Ok tenant, st1) =>
      match accounting_get_invoice api_client tenant sample_invoice_id st1 with
      | (Ok invoice, st2) =>
          check_invoice api_client st
          = (Ok (RenderTemplate "code.html" "Invoice check"
                   (SerializeInvoices invoice)
                   (Some ("A invoice with invoice id " +:+ sample_invoice_id
                          +:+ " exists.")) None), st2)
      | (Raise _, st2) =>
          check_invoice api_client st
          = (Ok (RenderTemplate "code.html" "Invoice check" (JsonifyStr "")
                   (Some ("No invoice with invoice id " +:+ sample_invoice_id
                          +:+ " exists.")) None), st2)
      end
  | (Raise e, st1) => check_invoice api_client st = (Raise e, st1)
  end.
Proof.
  unfold check_invoice, bind, try_except_else.
  destruct (get_xero_tenant_id api_client st) as [[tenant|e] st1]; [|done].
  cbv zeta.
  by destruct (accounting_get_invoice api_client tenant sample_invoice_id st1)
    as [[invoice|e] st2].
Qed.

Lemma kept_ids_sublist api_client tenant invoice_ids st kept st' :
  kept_ids api_client tenant invoice_ids st kept st' ->
  kept `sublist_of` invoice_ids.
Proof.
  induction 1 as [| ? ? ? ? ? ? ? _ _ IH | ? ? ? ? ? ? ? _ _ IH].
  - constructor.
  - by apply sublist_skip.
  - by apply sublist_cons.
Qed.

Lemma check_invoices_bool_run api_client invoice_ids st kept st' :
  check_invoices_bool api_client invoice_ids st = (Ok kept, st') ->
  exists tenant st1,
    get_xero_tenant_id api_client st = (Ok tenant, st1)
    /\ kept_ids api_client tenant invoice_ids st1 kept st'.
Proof.
  unfold check_invoices_bool, bind.
  destruct (get_xero_tenant_id api_client st) as [[tenant|e] st1];
    [|discriminate].
  destruct (existing_invoices_kept api_client tenant invoice_ids [] st1)
    as (kept' & st'' & Hrun & Hkept).
  rewrite Hrun, app_nil_l. intros [= <- <-]. by exists tenant, st1.
Qed.

(** X12. [check_invoices_bool] invents and reorders nothing: what it returns
    is a sublist of the ids it was given, so it keeps their order and their
    repetitions and is never longer than its input. *)
Theorem check_invoices_bool_sublist (api_client : ApiClient)
    (invoice_ids kept : list string) (st st' : State) :
  check_invoices_bool api_client invoice_ids st = (Ok kept, st') ->
  kept `sublist_of` invoice_ids
  /\ (length kept <= length invoice_ids)%nat.
Proof.
  intros Hrun.
  destruct (check_invoices_bool_run _ _ _ _ _ Hrun) as (tenant & st1 & _ & Hkept).
  pose proof (kept_ids_sublist _ _ _ _ _ _ Hkept) as Hsub.
  split; [exact Hsub | by apply sublist_length].
Qed.

Lemma check_invoices_bool_sublist_witness :
  check_invoices_bool (scripted_client three_connections only_sample)
    ["missing"; sample_invoice_id; "absent"] stale_session
  = (Ok [sample_invoice_id], stale_session)
  /\ [sample_invoice_id] `sublist_of` ["missing"; sample_invoice_id; "absent"].
Proof.
  assert (Hrun : check_invoices_bool
                   (scripted_client three_connections only_sample)
                   ["missing"; sample_invoice_id; "absent"] stale_session
                 = (Ok [sample_invoice_id], stale_session))
    by (vm_compute; reflexivity).
  split; [exact Hrun|].
  apply (check_invoices_bool_sublist _ _ _ _ _ Hrun).
Defined.

(** X13. The two helpers agree: on a one-element list
    [check_invoices_bool] returns that element exactly when
    [check_invoice_bool] returns [True] for it, returns the empty list when
    it returns [False], raises when it raises, and ends in the same state. *)
Theorem helpers_agree_on_singleton (api_client : ApiClient)
    (invoice_id : string) (st : State) :
  match check_invoice_bool api_client invoice_id st with
  | (Ok found, st') =>
      check_invoices_bool api_client [invoice_id] st
      = (Ok (if found then [invoice_id] else []), st')
  | (Raise e, st') =>
      check_invoices_bool api_client [invoice_id] st = (Raise e, st')
  end.
Proof.
  unfold check_invoice_bool, check_invoices_bool, bind. simpl.
  unfold try_except_else.
  destruct (get_xero_tenant_id api_client st) as [[tenant|e] st1]; [|done].
  by destruct (accounting_get_invoice api_client tenant invoice_id st1)
    as [[invoice|e] st2].
Qed.

Lemma append_assoc (a b c : string) : (a +:+ b) +:+ c = a +:+ (b +:+ c).
Proof.
  induction a as [|ch a IH]; [reflexivity|].
  change (String ch ((a +:+ b) +:+ c) = String ch (a +:+ (b +:+ c))).
  f_equal. exact IH.
Qed.

Lemma append_empty (a : string) : a +:+ "" = a.
Proof.
  induction a as [|ch a IH]; [reflexivity|].
  change (String ch (a +:+ "") = String ch a). f_equal. exact IH.
Qed.

Lemma render_existing_listing api_client tenant invoice_ids :
  forall code sub_title st code' sub_title' st',
    render_existing api_client tenant invoice_ids code sub_title st
    = (Ok (code', sub_title'), st') ->
    sub_title' = sub_title +:+ id_listing invoice_ids.
Proof.
  induction invoice_ids as [|invoice_id rest IH];
    intros code sub_title st code' sub_title' st'; cbn [render_existing].
  - intros [= _ <- _]. change (id_listing []) with "". by rewrite append_empty.
  - unfold bind.
    destruct (accounting_get_invoice api_client tenant invoice_id st)
      as [[invoice|e] st1]; [|discriminate].
    intros Hrest. apply IH in Hrest. rewrite Hrest.
    change (id_listing (invoice_id :: rest))
      with (" " +:+ invoice_id +:+ id_listing rest).
    by rewrite !append_assoc.
Qed.



(** ** Who writes the session *)

Lemma keeps_ret {A} (a : A) : keeps_session (ret a).
Proof. by intros st. Qed.

Lemma keeps_raise {A} (e : exn) : keeps_session (@raise A e).
Proof. by intros st. Qed.

Lemma keeps_bind {A B} (m : M A) (k : A -> M B) :
  keeps_session m -> (forall a, keeps_session (k a)) ->
  keeps_session (bind m k).
Proof.
  intros Hm Hk st. unfold bind. specialize (Hm st).
  destruct (m st) as [[a|e] st1]; simpl in Hm; [|exact Hm].
  by rewrite (Hk a st1).
Qed.

Lemma keeps_try {A B} (body : M A) (handler : exn -> M B) (els : A -> M B) :
  keeps_session body -> (forall e, keeps_session (handler e)) ->
  (forall a, keeps_session (els a)) ->
  keeps_session (try_except_else body handler els).
Proof.
  intros Hbody Hhandler Hels st. unfold try_except_else. specialize (Hbody st).
  destruct (body st) as [[a|e] st1]; simpl in Hbody.
  - by rewrite (Hels a st1).
  - by rewrite (Hhandler e st1).
Qed.

Lemma keeps_obtain : keeps_session obtain_xero_oauth2_token.
Proof. by intros st. Qed.

Lemma keeps_gate {A} (function : A -> M Response) args :
  keeps_session (function args) ->
  keeps_session (xero_token_required function args).
Proof.
  intros Hf. unfold xero_token_required.
  apply keeps_bind; [apply keeps_obtain|]. intros token.
  destruct (negb (truthy token)); [apply keeps_ret | exact Hf].
Qed.

Section QuietClient.

Variable api_client : ApiClient.
Hypothesis Hquiet : client_keeps_session api_client.

Lemma keeps_resolver : keeps_session (get_xero_tenant_id api_client).
Proof.
  unfold get_xero_tenant_id. apply keeps_bind; [apply keeps_obtain|].
  intros token. destruct (negb (truthy token)); [apply keeps_ret|].
  apply keeps_bind; [apply Hquiet | intros; apply keeps_ret].
Qed.

Lemma keeps_existing tenant invoice_ids :
  forall exists_array,
    keeps_session (existing_invoices api_client tenant invoice_ids exists_array).
Proof.
  induction invoice_ids as [|invoice_id rest IH]; intros exists_array; simpl.
  - apply keeps_ret.
  - apply keeps_try; [apply Hquiet | intros; apply IH | intros; apply IH].
Qed.

Lemma keeps_render tenant invoice_ids :
  forall code sub_title,
    keeps_session (render_existing api_client tenant invoice_ids code sub_title).
Proof.
  induction invoice_ids as [|invoice_id rest IH]; intros code sub_title;
    cbn [render_existing].
  - apply keeps_ret.
  - apply keeps_bind; [apply Hquiet | intros; apply IH].
Qed.

Ltac quiet :=
  repeat first
    [ apply keeps_ret | apply keeps_raise | apply keeps_obtain
    | apply keeps_resolver | apply keeps_existing | apply keeps_render
    | apply (keeps_refresh _ Hquiet) | apply (keeps_connections _ Hquiet)
    | apply (keeps_get_invoices _ Hquiet) | apply (keeps_get_invoice _ Hquiet)
    | apply (keeps_create_invoices _ Hquiet)
    | apply (keeps_update_invoice _ Hquiet)
    | apply keeps_bind; [|intros ?] | apply keeps_try; [|intros [? ?|? ?]|intros ?] ].

Lemma keeps_view view : keeps_session (view_function api_client view tt).
Proof.
  destruct view; simpl view_function;
    [ unfold get_invoices_view | unfold get_invoice_id_view
    | unfold get_invoice_num_view | unfold create_invoices_view
    | unfold get_invoice_view | unfold create_invoice_view
    | unfold update_invoice_view | unfold export_token_view
    | unfold refresh_token_view ]; cbv zeta; quiet.
Qed.

Lemma keeps_check_routes :
  keeps_session (check_invoice api_client)
  /\ keeps_session (check_invoices api_client).
Proof.
  split.
  - unfold check_invoice. cbv zeta. quiet.
  - unfold check_invoices, check_invoices_bool. cbv zeta. quiet.
Qed.

End QuietClient.

(** X16. The handlers of [app.py] write the session only in the callback
    and in logout.  With a client and an authorize step that leave the
    session alone, every other route (the home page, each decorated view
    behind its gate, both check routes and login) returns with the session
    exactly as it found it, whether it answers or raises. *)
Theorem only_callback_and_logout_write (api_client : ApiClient)
    (xero : RemoteApp) (route : Route) (st : State) :
  client_keeps_session api_client ->
  (forall callback, keeps_session (authorize xero callback)) ->
  saves_token route = false ->
  session (snd (dispatch api_client xero route st)) = session st.
Proof.
  intros Hquiet Hauth Hroute. revert st.
  change (keeps_session (dispatch api_client xero route)).
  destruct route; try discriminate Hroute; simpl dispatch.
  - unfold index. apply keeps_bind; [apply keeps_obtain|]. intros token.
    apply keeps_bind; [|intros; apply keeps_ret].
    unfold dict_of. destruct (py_or token (PDict ∅));
      [apply keeps_raise | apply keeps_ret].
  - unfold protected. apply keeps_gate. by apply keeps_view.
  - by apply keeps_check_routes.
  - by apply keeps_check_routes.
  - unfold login. apply keeps_bind; [apply Hauth | intros; apply keeps_ret].
Qed.

Lemma offline_client_is_quiet : client_keeps_session offline_client.
Proof. by constructor. Qed.

Lemma only_callback_and_logout_write_witness :
  session (snd (dispatch offline_client failing_app route_check_invoices
                  stale_session))
  = session stale_session.
Proof.
  apply (only_callback_and_logout_write offline_client failing_app
           route_check_invoices stale_session offline_client_is_quiet).
  - intros callback st. reflexivity.
  - reflexivity.
Defined.
